(** * fake-store-server: the data-access layer of [src/db/index.js]

    The module owns one SQLite connection (through better-sqlite3) and
    exposes twelve asynchronous repository operations over three tables
    ([users], [orders], [cart]).  The development below embeds

    - JavaScript numbers as binary64 floats, with [Math.round];
    - [JSON.stringify] / [JSON.parse] on the item payloads;
    - the store: the three tables, the AUTOINCREMENT counters, the
      connection's last insert rowid, and the failures of a statement
      (closed connection, missing table, violated constraint);
    - promises as a state-and-exception monad, [try]/[catch] included;
    - every operation of the file, statement by statement.

    Arguments are typed as the schema reads them: ids and the two order
    flags are integers, names, emails and passwords are strings, prices and
    quantities are numbers.  The calls on which the code throws before it
    enters a [try] block (no argument object, [items] missing or malformed)
    are modelled as calls of their own.  Console output ([console.log], [console.error])
    is not part of the model, and [dbTest], a smoke test on a table of its
    own, is left out. *)

From Stdlib Require Import ZArith List String Lia.
From Stdlib Require Import Floats.PrimFloat Floats.SpecFloat Floats.FloatOps.
From Stdlib Require Import Numbers.Cyclic.Int63.Uint63.
From stdpp Require Import gmap strings.

Local Open Scope string_scope.
Local Open Scope Z_scope.

Set Warnings "-register-all".

(* ===================================================================== *)
(** ** JavaScript numbers *)
(* ===================================================================== *)

(** A JavaScript number is an IEEE 754 binary64 value; [+] and [*] are the
    primitive float operations (round to nearest, ties to even). *)
Abbreviation number := float.

Module Math.

(** The float of an integer of magnitude below [2^63]. *)
Definition of_Z (n : Z) : number :=
  let a := PrimFloat.of_uint63 (Uint63.of_Z (Z.abs n)) in
  if n <? 0 then PrimFloat.opp a else a.

(** [Math.round(x)]: the integer closest to [x], a tie going towards
    +Infinity, that is [floor (x + 1/2)] computed exactly.  NaN, the
    infinities, the zeros and the floats that are already integers are
    returned as they are; a result of zero keeps the sign of [x].

    A finite non-zero float is [(-1)^s * m * 2^e]; for [e < 0], with
    [k = -e], [x + 1/2 = (+-2m + 2^k) / 2^(k+1)]. *)
Definition round (x : number) : number :=
  match Prim2SF x with
  | S754_finite s m e =>
      if 0 <=? e then x
      else
        let k := - e in
        let num := if s then 2 ^ k - 2 * Z.pos m else 2 * Z.pos m + 2 ^ k in
        let n := num / 2 ^ (k + 1) in
        if n =? 0 then (if s then PrimFloat.neg_zero else PrimFloat.zero)
        else of_Z n
  | _ => x
  end.

End Math.

(** [Array.prototype.reduce] with an initial value: a left fold. *)
Definition reduce {A B : Type} (f : B -> A -> B) (init : B) (l : list A) : B :=
  fold_left f l init.

(* ===================================================================== *)
(** ** JSON payloads *)
(* ===================================================================== *)

(** The values a cart or an order carries: what a decoded JSON body holds. *)
Inductive json : Type :=
| JNull
| JBool (b : bool)
| JNum (n : number)
| JStr (s : string)
| JArr (elems : list json)
| JObj (props : list (string * json)).

Module JSON.

(** The store never looks inside a TEXT value that holds JSON, so the
    text is kept as the document it spells out. *)
Inductive text : Type := Text (doc : json).

(** What the serializer writes for a number: [null] for NaN and the
    infinities, [0] for negative zero, the number itself otherwise. *)
Definition number_doc (n : number) : json :=
  if PrimFloat.is_finite n then
    if PrimFloat.get_sign n && PrimFloat.is_zero n then JNum PrimFloat.zero
    else JNum n
  else JNull.

Fixpoint document (v : json) : json :=
  match v with
  | JNum n => number_doc n
  | JArr elems => JArr (map document elems)
  | JObj props => JObj (map (fun kv => (fst kv, document (snd kv))) props)
  | _ => v
  end.

Definition stringify (v : json) : text := Text (document v).

Definition parse (t : text) : json := let 'Text doc := t in doc.

(** A number that the text spells exactly: finite and not negative zero. *)
Definition exact_number (n : number) : bool :=
  PrimFloat.is_finite n && negb (PrimFloat.get_sign n && PrimFloat.is_zero n).

(** A value without NaN, infinities or negative zero anywhere. *)
Fixpoint exact (v : json) : bool :=
  match v with
  | JNum n => exact_number n
  | JArr elems => forallb exact elems
  | JObj props => forallb (fun kv => exact (snd kv)) props
  | _ => true
  end.

End JSON.

(** A line item of an order: an object with a numeric [price] and
    [quantity]; whatever else it carries is opaque to this layer. *)
Record item : Type := {
  price : number;
  quantity : number;
  rest : list (string * json)
}.

Definition item_json (itm : item) : json :=
  JObj (("price", JNum (price itm)) :: ("quantity", JNum (quantity itm)) :: rest itm).

Definition items_json (items : list item) : json := JArr (map item_json items).

(* ===================================================================== *)
(** ** The store *)
(* ===================================================================== *)

(** [users(id INTEGER PRIMARY KEY AUTOINCREMENT, name, email UNIQUE, password)] *)
Module Users.
Record row : Type := { id : Z; name : string; email : string; password : string }.
(** The rows in rowid order, and the table's entry in [sqlite_sequence]. *)
Record table : Type := { rows : list row; seq : Z }.
Definition empty : table := {| rows := []; seq := 0 |}.
End Users.

(** [orders(id INTEGER PRIMARY KEY AUTOINCREMENT, uid, item_numbers,
    is_paid CHECK (is_paid IN (0,1)), is_delivered CHECK (is_delivered IN (0,1)),
    total_price, order_items)], every column NOT NULL. *)
Module Orders.
Record row : Type := {
  id : Z;
  uid : Z;
  item_numbers : number;
  is_paid : Z;
  is_delivered : Z;
  total_price : number;
  order_items : JSON.text
}.
Record table : Type := { rows : list row; seq : Z }.
Definition empty : table := {| rows := []; seq := 0 |}.
End Orders.

(** [cart(uid INTEGER UNIQUE NOT NULL, cart_items TEXT NOT NULL)].  [uid] is
    unique, so the table is a finite map from [uid] to the rest of the row:
    the hidden rowid and [cart_items]. *)
Module Cart.
Record row : Type := { uid : Z; cart_items : JSON.text }.
Record stored : Type := { rowid : Z; items : JSON.text }.
Abbreviation table := (gmap Z stored).
End Cart.

(** The database file seen through the one connection of the module. *)
Record database : Type := {
  is_open : bool;                       (* false after [db.close()] *)
  users : option Users.table;           (* [None]: the table does not exist *)
  orders : option Orders.table;
  cart : option Cart.table;
  last_insert_rowid : Z                 (* of the connection *)
}.

Definition set_users (t : Users.table) (db : database) : database :=
  {| is_open := is_open db; users := Some t; orders := orders db;
     cart := cart db; last_insert_rowid := last_insert_rowid db |}.

Definition set_orders (t : Orders.table) (db : database) : database :=
  {| is_open := is_open db; users := users db; orders := Some t;
     cart := cart db; last_insert_rowid := last_insert_rowid db |}.

Definition set_cart (t : Cart.table) (db : database) : database :=
  {| is_open := is_open db; users := users db; orders := orders db;
     cart := Some t; last_insert_rowid := last_insert_rowid db |}.

Definition set_last_insert_rowid (n : Z) (db : database) : database :=
  {| is_open := is_open db; users := users db; orders := orders db;
     cart := cart db; last_insert_rowid := n |}.

Definition set_closed (db : database) : database :=
  {| is_open := false; users := users db; orders := orders db;
     cart := cart db; last_insert_rowid := last_insert_rowid db |}.

(** What a statement throws. [message] is the [e.message] of the source. *)
Inductive exn : Type :=
| SqliteError (msg : string)
| TypeError (msg : string).

Definition message (e : exn) : string :=
  match e with SqliteError msg | TypeError msg => msg end.

(** The statements the module runs for effect, each with its bound parameters. *)
Inductive statement : Type :=
| CreateUsersTable
| CreateOrdersTable
| CreateCartTable
| InsertUser (name email password : string)
    (* INSERT INTO users (name,email,password) VALUES (?,?,?) *)
| UpdateUser (name password : string) (id : Z)
    (* UPDATE users SET name=$name, password=$password WHERE id=$id *)
| DeleteUser (email : string)
    (* DELETE FROM users WHERE email=$email *)
| InsertOrder (uid : Z) (item_numbers total_price : number)
              (order_items : JSON.text) (is_paid is_delivered : Z)
    (* INSERT INTO orders (uid,item_numbers,total_price,order_items,is_paid,is_delivered)
       VALUES (?,?,?,?,?,?) *)
| UpdateOrder (orderID isPaid isDelivered : Z)
    (* UPDATE orders SET is_paid=$isPaid, is_delivered=$isDelivered WHERE id=$orderID *)
| UpsertCart (uid : Z) (itemstr : JSON.text).
    (* INSERT INTO cart (uid, cart_items) VALUES ($uid, $itemstr)
       ON CONFLICT (uid) DO UPDATE SET cart_items=excluded.cart_items *)

(** The queries, indexed by the type of the rows they return. *)
Inductive query : Type -> Type :=
| SelectUserByEmail (email : string) : query Users.row
    (* SELECT * FROM users WHERE email = $email *)
| SelectUserByEmailPassword (email password : string) : query Users.row
    (* SELECT * FROM users WHERE email=$email AND password=$password *)
| SelectAllUsers : query Users.row
| SelectAllOrders : query Orders.row
| SelectOrdersByUid (uid : Z) : query Orders.row
    (* SELECT * FROM orders WHERE uid = $uid *)
| SelectCartByUid (uid : Z) : query Cart.row.
    (* SELECT * FROM cart WHERE uid=$uid *)

(** What [stmt.run] reports. *)
Record run_info : Type := { lastID : Z; changes : Z }.

Module Sqlite.

Definition not_open : exn := TypeError "The database connection is not open".
Definition no_such_table (t : string) : exn := SqliteError ("no such table: " ++ t).
Definition unique_failed (c : string) : exn :=
  SqliteError ("UNIQUE constraint failed: " ++ c).
Definition not_null_failed (c : string) : exn :=
  SqliteError ("NOT NULL constraint failed: " ++ c).
Definition check_failed (c : string) : exn :=
  SqliteError ("CHECK constraint failed: " ++ c).

(** AUTOINCREMENT: one more than the largest rowid the table ever held. *)
Definition max_id {R : Type} (id : R -> Z) (rows : list R) : Z :=
  fold_right (fun r acc => Z.max (id r) acc) 0 rows.

Definition next_id {R : Type} (id : R -> Z) (rows : list R) (seq : Z) : Z :=
  Z.max seq (max_id id rows) + 1.

(** A table without AUTOINCREMENT: one more than the largest rowid in it. *)
Definition next_rowid (t : Cart.table) : Z :=
  map_fold (fun _ r acc => Z.max (Cart.rowid r) acc) 0 t + 1.

(** [CHECK (c IN (0,1))] *)
Definition in_0_1 (v : Z) : bool := (v =? 0) || (v =? 1).

(** A number is bound as a double, and SQLite reads a NaN as NULL. *)
Definition is_null (n : number) : bool := PrimFloat.is_nan n.

Definition info (db : database) (n : Z) : run_info :=
  {| lastID := last_insert_rowid db; changes := n |}.

Definition count {R : Type} (p : R -> bool) (rows : list R) : Z :=
  Z.of_nat (length (List.filter p rows)).

Definition user_has_email (email : string) (r : Users.row) : bool :=
  String.eqb (Users.email r) email.

Definition user_has_id (id : Z) (r : Users.row) : bool := Users.id r =? id.

Definition order_has_id (id : Z) (r : Orders.row) : bool := Orders.id r =? id.

Definition order_has_uid (uid : Z) (r : Orders.row) : bool := Orders.uid r =? uid.

Definition set_name_password (name password : string) (r : Users.row) : Users.row :=
  {| Users.id := Users.id r; Users.name := name;
     Users.email := Users.email r; Users.password := password |}.

Definition set_flags (isPaid isDelivered : Z) (r : Orders.row) : Orders.row :=
  {| Orders.id := Orders.id r; Orders.uid := Orders.uid r;
     Orders.item_numbers := Orders.item_numbers r;
     Orders.is_paid := isPaid; Orders.is_delivered := isDelivered;
     Orders.total_price := Orders.total_price r;
     Orders.order_items := Orders.order_items r |}.

(** [UPDATE ... WHERE p]: the matching rows are rewritten in place. *)
Definition update {R : Type} (p : R -> bool) (f : R -> R) (rows : list R) : list R :=
  map (fun r => if p r then f r else r) rows.

(** [db.prepare(query).run(params)]: the new state and the run report, or
    the exception thrown; a statement that throws changes nothing. *)
Definition run (q : statement) (db : database) : exn + run_info * database :=
  if negb (is_open db) then inl not_open else
  match q with
  | CreateUsersTable =>
      match users db with
      | Some _ => inr (info db 0, db)
      | None => inr (info db 0, set_users Users.empty db)
      end
  | CreateOrdersTable =>
      match orders db with
      | Some _ => inr (info db 0, db)
      | None => inr (info db 0, set_orders Orders.empty db)
      end
  | CreateCartTable =>
      match cart db with
      | Some _ => inr (info db 0, db)
      | None => inr (info db 0, set_cart ∅ db)
      end
  | InsertUser name email password =>
      match users db with
      | None => inl (no_such_table "users")
      | Some t =>
          if existsb (user_has_email email) (Users.rows t)
          then inl (unique_failed "users.email")
          else
            let id := next_id Users.id (Users.rows t) (Users.seq t) in
            let r := {| Users.id := id; Users.name := name;
                        Users.email := email; Users.password := password |} in
            let db' := set_last_insert_rowid id
                         (set_users {| Users.rows := Users.rows t ++ [r];
                                       Users.seq := id |} db) in
            inr (info db' 1, db')
      end
  | UpdateUser name password id =>
      match users db with
      | None => inl (no_such_table "users")
      | Some t =>
          let n := count (user_has_id id) (Users.rows t) in
          inr (info db n,
               set_users {| Users.rows := update (user_has_id id)
                                            (set_name_password name password)
                                            (Users.rows t);
                            Users.seq := Users.seq t |} db)
      end
  | DeleteUser email =>
      match users db with
      | None => inl (no_such_table "users")
      | Some t =>
          let n := count (user_has_email email) (Users.rows t) in
          inr (info db n,
               set_users {| Users.rows :=
                              List.filter (fun r => negb (user_has_email email r))
                                          (Users.rows t);
                            Users.seq := Users.seq t |} db)
      end
  | InsertOrder uid item_numbers total_price order_items is_paid is_delivered =>
      match orders db with
      | None => inl (no_such_table "orders")
      | Some t =>
          if is_null item_numbers then inl (not_null_failed "orders.item_numbers")
          else if is_null total_price then inl (not_null_failed "orders.total_price")
          else if negb (in_0_1 is_paid) then inl (check_failed "is_paid IN (0,1)")
          else if negb (in_0_1 is_delivered)
          then inl (check_failed "is_delivered IN (0,1)")
          else
            let id := next_id Orders.id (Orders.rows t) (Orders.seq t) in
            let r := {| Orders.id := id; Orders.uid := uid;
                        Orders.item_numbers := item_numbers;
                        Orders.is_paid := is_paid;
                        Orders.is_delivered := is_delivered;
                        Orders.total_price := total_price;
                        Orders.order_items := order_items |} in
            let db' := set_last_insert_rowid id
                         (set_orders {| Orders.rows := Orders.rows t ++ [r];
                                        Orders.seq := id |} db) in
            inr (info db' 1, db')
      end
  | UpdateOrder orderID isPaid isDelivered =>
      match orders db with
      | None => inl (no_such_table "orders")
      | Some t =>
          let n := count (order_has_id orderID) (Orders.rows t) in
          if n =? 0 then inr (info db 0, db)
          else if negb (in_0_1 isPaid) then inl (check_failed "is_paid IN (0,1)")
          else if negb (in_0_1 isDelivered)
          then inl (check_failed "is_delivered IN (0,1)")
          else
            inr (info db n,
                 set_orders {| Orders.rows := update (order_has_id orderID)
                                                (set_flags isPaid isDelivered)
                                                (Orders.rows t);
                               Orders.seq := Orders.seq t |} db)
      end
  | UpsertCart uid itemstr =>
      match cart db with
      | None => inl (no_such_table "cart")
      | Some t =>
          match t !! uid with
          | Some old =>
              (* the conflicting row keeps its rowid; no row was inserted *)
              inr (info db 1,
                   set_cart (<[uid := {| Cart.rowid := Cart.rowid old;
                                         Cart.items := itemstr |}]> t) db)
          | None =>
              let rowid := next_rowid t in
              let db' := set_last_insert_rowid rowid
                           (set_cart (<[uid := {| Cart.rowid := rowid;
                                                  Cart.items := itemstr |}]> t) db) in
              inr (info db' 1, db')
          end
      end
  end.

Definition user_has_email_password (email password : string) (r : Users.row) : bool :=
  String.eqb (Users.email r) email && String.eqb (Users.password r) password.

(** [db.prepare(query).all(params)]: the matching rows, in rowid order. *)
Definition all {R : Type} (q : query R) (db : database) : exn + list R :=
  if negb (is_open db) then inl not_open else
  match q in query R return exn + list R with
  | SelectUserByEmail email =>
      match users db with
      | None => inl (no_such_table "users")
      | Some t => inr (List.filter (user_has_email email) (Users.rows t))
      end
  | SelectUserByEmailPassword email password =>
      match users db with
      | None => inl (no_such_table "users")
      | Some t =>
          inr (List.filter (user_has_email_password email password) (Users.rows t))
      end
  | SelectAllUsers =>
      match users db with
      | None => inl (no_such_table "users")
      | Some t => inr (Users.rows t)
      end
  | SelectAllOrders =>
      match orders db with
      | None => inl (no_such_table "orders")
      | Some t => inr (Orders.rows t)
      end
  | SelectOrdersByUid uid =>
      match orders db with
      | None => inl (no_such_table "orders")
      | Some t => inr (List.filter (order_has_uid uid) (Orders.rows t))
      end
  | SelectCartByUid uid =>
      match cart db with
      | None => inl (no_such_table "cart")
      | Some t =>
          match t !! uid with
          | Some r => inr [ {| Cart.uid := uid; Cart.cart_items := Cart.items r |} ]
          | None => inr []
          end
      end
  end.

(** [db.prepare(query).get(params)]: the first matching row, or [undefined]. *)
Definition get {R : Type} (q : query R) (db : database) : exn + option R :=
  match all q db with
  | inl e => inl e
  | inr rows => inr (head rows)
  end.

End Sqlite.

(* ===================================================================== *)
(** ** Promises *)
(* ===================================================================== *)

(** An [async] function runs against the store and either returns a value
    (the promise resolves) or throws (the promise rejects, and the caller's
    [await] throws in turn). *)
Inductive completion (A : Type) : Type :=
| Return (a : A)
| Throw (e : exn).
Arguments Return {A} a.
Arguments Throw {A} e.

Definition Promise (A : Type) : Type := database -> completion A * database.

Definition ret {A : Type} (a : A) : Promise A := fun db => (Return a, db).

Definition throw {A : Type} (e : exn) : Promise A := fun db => (Throw e, db).

Definition bind {A B : Type} (m : Promise A) (k : A -> Promise B) : Promise B :=
  fun db =>
    match m db with
    | (Return a, db') => k a db'
    | (Throw e, db') => (Throw e, db')
    end.

(** [try { body } catch (e) { handler }] *)
Definition try_catch {A : Type} (body : Promise A) (handler : exn -> Promise A)
  : Promise A :=
  fun db =>
    match body db with
    | (Return a, db') => (Return a, db')
    | (Throw e, db') => handler e db'
    end.

Notation "x <- m ;; k" := (bind m (fun x => k))
  (at level 100, m at next level, right associativity).

(* ===================================================================== *)
(** ** The statement executor *)
(* ===================================================================== *)

(** [dbRun]: run a statement for effect, resolve with [{lastID, changes}]. *)
Definition dbRun (q : statement) : Promise run_info :=
  fun db =>
    match Sqlite.run q db with
    | inr (info, db') => (Return info, db')
    | inl err => (Throw err, db)
    end.

(** [dbAll]: fetch all rows. *)
Definition dbAll {R : Type} (q : query R) : Promise (list R) :=
  fun db =>
    match Sqlite.all q db with
    | inr rows => (Return rows, db)
    | inl err => (Throw err, db)
    end.

(** [dbGet]: fetch a single row, [None] standing for [undefined]. *)
Definition dbGet {R : Type} (q : query R) : Promise (option R) :=
  fun db =>
    match Sqlite.get q db with
    | inr row => (Return row, db)
    | inl err => (Throw err, db)
    end.

(** [dbClose] *)
Definition dbClose : Promise unit := fun db => (Return tt, set_closed db).

(** Table-creation helpers, and the initialisation run when the module loads. *)
Definition createUsersTable : Promise bool :=
  try_catch (_ <- dbRun CreateUsersTable ;; ret true) (fun e => ret false).

Definition createOrdersTable : Promise bool :=
  try_catch (_ <- dbRun CreateOrdersTable ;; ret true) (fun e => ret false).

Definition createShoppingCartTable : Promise bool :=
  try_catch (_ <- dbRun CreateCartTable ;; ret true) (fun e => ret false).

Definition init : Promise unit :=
  try_catch
    (_ <- createUsersTable ;;
     _ <- createOrdersTable ;;
     _ <- createShoppingCartTable ;;
     ret tt)
    (fun e => ret tt).

(* ===================================================================== *)
(** ** The result envelope *)
(* ===================================================================== *)

(** The fields an operation adds to [status: 'OK']. *)
Inductive data : Type :=
| NoData                                          (* { status } *)
| UserData (id : Z) (name email : string)         (* { status, id, name, email } *)
| UpdatedData (message name : string)             (* { status, message, name } *)
| DeletedData (users : run_info)                  (* { status, users: res } *)
| UsersData (users : list Users.row)              (* { status, users: res } *)
| OrdersData (orders : list Orders.row)           (* { status, orders: res } *)
| IdData (id : Z)                                 (* { status, id } *)
| ResultData (result : run_info)                  (* { status, result: res } *)
| ItemsData (items : json).                       (* { status, items } *)

Inductive envelope : Type :=
| OK (d : data)                                   (* { status: 'OK', ...d } *)
| Error (message : string).                       (* { status: 'error', message } *)

Definition status (r : envelope) : string :=
  match r with OK _ => "OK" | Error _ => "error" end.

(** [!s] on a string: true exactly for the empty string. *)
Definition not_ (s : string) : bool := String.eqb s "".

(* ===================================================================== *)
(** ** Data-access functions *)
(* ===================================================================== *)

Definition checkEmailTaken (email : string) : Promise envelope :=
  try_catch
    (result <- dbGet (SelectUserByEmail email) ;;
     ret (match result with
          | Some _ => Error "The email is already used."
          | None => OK NoData
          end))
    (fun e => ret (Error (message e))).

Definition createUser (name email password : string) : Promise envelope :=
  try_catch
    (check <- checkEmailTaken email ;;
     if String.eqb (status check) "error" then ret check
     else
       res <- dbRun (InsertUser name email password) ;;
       ret (OK (UserData (lastID res) name email)))
    (fun e => ret (Error "Failed to insert user!")).

Definition checkUser (email password : string) : Promise envelope :=
  try_catch
    (res <- dbGet (SelectUserByEmailPassword email password) ;;
     ret (match res with
          | Some res => OK (UserData (Users.id res) (Users.name res) email)
          | None => Error "Wrong email or password."
          end))
    (fun e => ret (Error "Failed to login user!")).

Definition updateUser (userID : Z) (name password : string) : Promise envelope :=
  if not_ name || not_ password
  then ret (Error "New Name and Password can't be empty.")
  else
    try_catch
      (_ <- dbRun (UpdateUser name password userID) ;;
       ret (OK (UpdatedData "User name and password update successfully." name)))
      (fun e => ret (Error "Failed to update user!")).

Definition deleteUser (email : string) : Promise envelope :=
  try_catch
    (res <- dbRun (DeleteUser email) ;;
     ret (OK (DeletedData res)))
    (fun e => ret (Error "Failed to delete user!")).

Definition getAllUsers : Promise envelope :=
  try_catch
    (res <- dbAll SelectAllUsers ;;
     ret (OK (UsersData res)))
    (fun e => ret (Error "Failed to get all users!")).

Definition getAllOrders : Promise envelope :=
  try_catch
    (res <- dbAll SelectAllOrders ;;
     ret (OK (OrdersData res)))
    (fun e => ret (Error "Failed to get all orders!")).

Definition getOrdersByUser (userID : Z) : Promise envelope :=
  try_catch
    (res <- dbAll (SelectOrdersByUid userID) ;;
     ret (OK (OrdersData res)))
    (fun e => ret (Error "Failed to get orders by user!")).

(** The callback of the [reduce] in [createOrder]. *)
Definition add_item (acc : number * number) (itm : item) : number * number :=
  let '(cnt, sum) := acc in
  ((cnt + quantity itm)%float,
   (sum + Math.round (quantity itm * price itm * 100))%float).

(** [createOrder({ userID, items })].  [items] is [None] when the argument
    object has no such property: destructuring then yields [undefined], and
    [items.reduce] throws before the [try] block is entered. *)
Definition createOrder (userID : Z) (items : option (list item)) : Promise envelope :=
  match items with
  | None => throw (TypeError "Cannot read properties of undefined (reading 'reduce')")
  | Some items =>
      let '(itemNumber, totalPrice) := reduce add_item (0%float, 0%float) items in
      let orderItems := JSON.stringify (items_json items) in
      try_catch
        (res <- dbRun (InsertOrder userID itemNumber totalPrice orderItems 0 0) ;;
         ret (OK (IdData (lastID res))))
        (fun e => ret (Error "Failed to insert orders!"))
  end.

Definition updateOrder (orderID isPaid isDelivered : Z) : Promise envelope :=
  try_catch
    (res <- dbRun (UpdateOrder orderID isPaid isDelivered) ;;
     ret (OK (ResultData res)))
    (fun e => ret (Error "update order error")).

Definition updateCart (uid : Z) (items : list json) : Promise envelope :=
  try_catch
    (res <- dbRun (UpsertCart uid (JSON.stringify (JArr items))) ;;
     ret (OK (ResultData res)))
    (fun e => ret (Error "update cart error")).

Definition getCart (uid : Z) : Promise envelope :=
  try_catch
    (res <- dbGet (SelectCartByUid uid) ;;
     match res with
     | None => ret (OK (ItemsData (JArr [])))
     | Some res => ret (OK (ItemsData (JSON.parse (Cart.cart_items res))))
     end)
    (fun e => ret (Error "Failed to get cart items!")).

(** The eight functions whose parameter is an object pattern
    ([async ({ uid }) => ...]).  Called without an argument, the pattern is
    matched against [undefined] and a TypeError is thrown before the body,
    and so before any [try] block, is entered. *)
Inductive object_pattern : Type :=
| OfCreateUser
| OfCheckUser
| OfUpdateUser
| OfGetOrdersByUser
| OfCreateOrder
| OfUpdateOrder
| OfUpdateCart
| OfGetCart.

(** The first property the pattern of each function reads. *)
Definition first_property (f : object_pattern) : string :=
  match f with
  | OfCreateUser => "name"
  | OfCheckUser => "email"
  | OfUpdateUser | OfGetOrdersByUser | OfCreateOrder => "userID"
  | OfUpdateOrder => "orderID"
  | OfUpdateCart | OfGetCart => "uid"
  end.

Definition destructuring_error (f : object_pattern) : exn :=
  TypeError ("Cannot destructure property '" ++ first_property f
             ++ "' of 'undefined' as it is undefined.").

(** An [items] property that is present but on which lines 244-248 of
    [createOrder], which run before its [try] block, throw. *)
Inductive malformed_items : Type :=
| NotAnArray
    (* null, a number, a string, a plain object: [items.reduce] throws *)
| NullLine
    (* an element is null or undefined: [itm.quantity] throws *)
| BigIntLine
    (* a price or a quantity is a BigInt: [+] or [*] with a number throws *)
| BigIntProperty (items : list item)
    (* lines with numeric price and quantity, one of which carries a BigInt
       in another property: the reduce goes through and
       [JSON.stringify(items)] throws *)
| CyclicLine (items : list item).
    (* as above, with a reference cycle in place of the BigInt *)

Definition malformed_error (bad : malformed_items) : exn :=
  match bad with
  | NotAnArray => TypeError "items.reduce is not a function"
  | NullLine => TypeError "Cannot read properties of null (reading 'quantity')"
  | BigIntLine =>
      TypeError "Cannot mix BigInt and other types, use explicit conversions"
  | BigIntProperty _ => TypeError "Do not know how to serialize a BigInt"
  | CyclicLine _ => TypeError "Converting circular structure to JSON"
  end.

(** The twelve operations with the typed arguments of a call, the calls of
    [createOrder] on malformed items, and the calls without the argument
    object; and what each call does. *)
Inductive operation : Type :=
| CheckEmailTaken (email : string)
| CreateUser (name email password : string)
| CheckUser (email password : string)
| UpdateUserOp (userID : Z) (name password : string)
| DeleteUserOp (email : string)
| GetAllUsers
| GetAllOrders
| GetOrdersByUser (userID : Z)
| CreateOrder (userID : Z) (items : option (list item))
| UpdateOrderOp (orderID isPaid isDelivered : Z)
| UpdateCart (uid : Z) (items : list json)
| GetCart (uid : Z)
| CreateOrderMalformed (userID : Z) (items : malformed_items)
| WithoutArgument (f : object_pattern).

Definition call (op : operation) : Promise envelope :=
  match op with
  | CheckEmailTaken email => checkEmailTaken email
  | CreateUser name email password => createUser name email password
  | CheckUser email password => checkUser email password
  | UpdateUserOp userID name password => updateUser userID name password
  | DeleteUserOp email => deleteUser email
  | GetAllUsers => getAllUsers
  | GetAllOrders => getAllOrders
  | GetOrdersByUser userID => getOrdersByUser userID
  | CreateOrder userID items => createOrder userID items
  | UpdateOrderOp orderID isPaid isDelivered => updateOrder orderID isPaid isDelivered
  | UpdateCart uid items => updateCart uid items
  | GetCart uid => getCart uid
  | CreateOrderMalformed userID items => throw (malformed_error items)
  | WithoutArgument f => throw (destructuring_error f)
  end.

(** The connection just opened on a new file, and the store once the
    module has loaded. *)
Definition new_file : database :=
  {| is_open := true; users := None; orders := None; cart := None;
     last_insert_rowid := 0 |}.

Definition loaded : database := snd (init new_file).

(* ===================================================================== *)
(** ** The quantities of the specification *)
(* ===================================================================== *)

(** The sum of a sequence of numbers, taken from left to right from [0]. *)
Definition sum (l : list number) : number := fold_left PrimFloat.add l 0%float.

(** One line of an order in minor units: [round(quantity × price × 100)]. *)
Definition line_total (itm : item) : number :=
  Math.round (quantity itm * price itm * 100)%float.

(** [itemCount = Σ quantity] and [totalPrice = Σ round(quantity × price × 100)]. *)
Definition item_count (items : list item) : number := sum (map quantity items).

Definition total_of_rounded_lines (items : list item) : number :=
  sum (map line_total items).

(** The other order of operations: sum the lines, round once at the end. *)
Definition rounded_total (items : list item) : number :=
  Math.round (sum (map (fun itm => (quantity itm * price itm * 100)%float) items)).

(** The item list of the specification's example. *)
Definition example_items : list item :=
  [ {| price := 1000; quantity := 2; rest := [] |};
    {| price := 250; quantity := 1; rest := [] |} ].

(** The order row [createOrder] inserts. *)
Definition new_order (id userID : Z) (items : list item) : Orders.row :=
  {| Orders.id := id; Orders.uid := userID;
     Orders.item_numbers := item_count items;
     Orders.is_paid := 0; Orders.is_delivered := 0;
     Orders.total_price := total_of_rounded_lines items;
     Orders.order_items := JSON.stringify (items_json items) |}.

(** The store after [INSERT INTO orders] gave the row the id [id]. *)
Definition with_order (r : Orders.row) (t : Orders.table) (db : database) : database :=
  set_last_insert_rowid (Orders.id r)
    (set_orders {| Orders.rows := Orders.rows t ++ [r]; Orders.seq := Orders.id r |} db).

(** Two lines of 0.005859375 each: rounding per line gives 1 + 1, rounding
    the sum 1.171875 once gives 1. *)
Definition half_cent_items : list item :=
  [ {| price := 0.005859375; quantity := 1; rest := [] |};
    {| price := 0.005859375; quantity := 1; rest := [] |} ].

(** Two finite lines whose totals overflow to +Infinity and -Infinity:
    2^700 units at 2^700 and at -2^700.  Their sum is NaN. *)
Definition overflow_items : list item :=
  [ {| price := 0x1p+700; quantity := 0x1p+700; rest := [] |};
    {| price := -0x1p+700; quantity := 0x1p+700; rest := [] |} ].

(** One line of [n] units at 0.0625: the line is worth 6.25 × n, exactly. *)
Definition sixteenth_line (n : Z) : item :=
  {| price := 0.0625; quantity := Math.of_Z n; rest := [] |}.

(** The integers from -200 to 200. *)
Definition small_quantities : list Z :=
  map (fun k => Z.of_nat k - 200) (seq 0 401).

(** The rows of the [orders] table, none when the table is missing. *)
Definition order_rows (db : database) : list Orders.row :=
  match orders db with Some t => Orders.rows t | None => [] end.

(** The rows of the [users] table, none when the table is missing. *)
Definition user_rows (db : database) : list Users.row :=
  match users db with Some t => Users.rows t | None => [] end.

(** Stores used as examples: the loaded store after one registration, after
    one order, and after that order was paid and delivered. *)
Definition ann_registered : database :=
  snd (createUser "Ann" "ann@example.com" "secret" loaded).

Definition order_placed : database :=
  snd (createOrder 7 (Some example_items) loaded).

Definition order_delivered : database :=
  snd (updateOrder 1 1 1 order_placed).

(** A call that passes the argument object and, to [createOrder], an
    [items] array of lines with numeric price and quantity that
    [JSON.stringify] can write: the calls on which nothing throws before a
    [try] block is entered. *)
Definition well_formed (op : operation) : Prop :=
  match op with
  | CreateOrder _ None => False
  | CreateOrderMalformed _ _ => False
  | WithoutArgument _ => False
  | _ => True
  end.

(** The uniform envelope: a status of 'OK' or of 'error'. *)
Definition is_envelope (r : envelope) : Prop :=
  status r = "OK" \/ status r = "error".

(** Two order rows that agree on every column but the two flags. *)
Definition same_but_flags (r r' : Orders.row) : Prop :=
  Orders.id r' = Orders.id r /\ Orders.uid r' = Orders.uid r /\
  Orders.item_numbers r' = Orders.item_numbers r /\
  Orders.total_price r' = Orders.total_price r /\
  Orders.order_items r' = Orders.order_items r.

(** What [updateOrder(orderID, 1, 0)] makes of a row: the rows of that id
    get is_paid = 1 and is_delivered = 0, the others stay as they are. *)
Definition marked_paid (orderID : Z) (r r' : Orders.row) : Prop :=
  same_but_flags r r' /\
  (Orders.id r = orderID -> Orders.is_paid r' = 1 /\ Orders.is_delivered r' = 0) /\
  (Orders.id r <> orderID -> r' = r).

(** The reading under which only is_paid may change. *)
Definition only_is_paid_changed (r r' : Orders.row) : Prop :=
  same_but_flags r r' /\ Orders.is_delivered r' = Orders.is_delivered r.

(* ===================================================================== *)
(** ** Further notions used to describe the operations *)
(* ===================================================================== *)

(** The operations that only run a SELECT. *)
Definition read_only (op : operation) : bool :=
  match op with
  | CheckEmailTaken _ | CheckUser _ _ | GetAllUsers | GetAllOrders
  | GetOrdersByUser _ | GetCart _ => true
  | _ => false
  end.

(** No row of the table carries the email. *)
Definition fresh_email (email : string) (rows : list Users.row) : Prop :=
  forall r, In r rows -> Users.email r <> email.

(** The user row an INSERT makes, and the store after it. *)
Definition new_user (id : Z) (name email password : string) : Users.row :=
  {| Users.id := id; Users.name := name; Users.email := email;
     Users.password := password |}.

Definition with_user (r : Users.row) (t : Users.table) (db : database) : database :=
  set_last_insert_rowid (Users.id r)
    (set_users {| Users.rows := Users.rows t ++ [r]; Users.seq := Users.id r |} db).

(** What the schema promises of the [users] table: emails and ids are
    unique, and no id exceeds the AUTOINCREMENT counter. *)
Definition users_ok (t : Users.table) : Prop :=
  List.NoDup (map Users.email (Users.rows t)) /\
  List.NoDup (map Users.id (Users.rows t)) /\
  Forall (fun r => Users.id r <= Users.seq t) (Users.rows t).

(** What the schema promises of the [orders] table: ids are unique and
    below the counter, and both flags are 0 or 1. *)
Definition flags_ok (r : Orders.row) : Prop :=
  Sqlite.in_0_1 (Orders.is_paid r) = true /\
  Sqlite.in_0_1 (Orders.is_delivered r) = true.

Definition orders_ok (t : Orders.table) : Prop :=
  List.NoDup (map Orders.id (Orders.rows t)) /\
  Forall (fun r => Orders.id r <= Orders.seq t) (Orders.rows t) /\
  Forall flags_ok (Orders.rows t).

Definition consistent (db : database) : Prop :=
  (forall t, users db = Some t -> users_ok t) /\
  (forall t, orders db = Some t -> orders_ok t).

(** The store with every table in place: a missing one is created empty. *)
Definition with_tables (db : database) : database :=
  {| is_open := is_open db;
     users := Some (match users db with Some t => t | None => Users.empty end);
     orders := Some (match orders db with Some t => t | None => Orders.empty end);
     cart := Some (match cart db with Some t => t | None => ∅ end);
     last_insert_rowid := last_insert_rowid db |}.

(** A store with two registered users and two orders, used as an example. *)
Definition two_users : database :=
  snd (createUser "Bob" "bob@example.com" "hunter2" ann_registered).

Definition two_orders : database :=
  snd (createOrder 8 (Some half_cent_items) order_placed).

(* ===================================================================== *)
(** ** Reasoning about promises *)
(* ===================================================================== *)

Create HintDb promise.
#[local] Hint Unfold bind ret throw try_catch dbRun dbGet dbAll : promise.

Ltac run_promise := autounfold with promise; simpl.

(** A storage primitive leaves the store as it was when it throws. *)
Lemma dbRun_throw q db e db' : dbRun q db = (Throw e, db') -> db' = db.
Proof.
  unfold dbRun. destruct (Sqlite.run q db) as [err | [i d]]; intros H.
  - now inversion H.
  - discriminate H.
Qed.

(** A [try] whose handler returns cannot throw. *)
Lemma try_catch_returns {A : Type} (body : Promise A) (handler : exn -> Promise A) :
  (forall e db, exists a db', handler e db = (Return a, db')) ->
  forall db, exists a db', try_catch body handler db = (Return a, db').
Proof.
  intros Hh db. unfold try_catch.
  destruct (body db) as [[a | e] db']; [ now exists a, db' | apply Hh ].
Qed.

(** Two floats that the float equality test tells apart are different. *)
Lemma float_neq (x y : number) : PrimFloat.eqb x y = false -> PrimFloat.eqb y y = true -> x <> y.
Proof. intros Hxy Hyy ->. rewrite Hyy in Hxy. discriminate Hxy. Qed.

(* ===================================================================== *)
(** ** createOrder *)
(* ===================================================================== *)

Section Totals.

(** The reduce threads two independent accumulators. *)
Lemma reduce_add_item (items : list item) (cnt sum0 : number) :
  reduce add_item (cnt, sum0) items =
  (fold_left PrimFloat.add (map quantity items) cnt,
   fold_left PrimFloat.add (map line_total items) sum0).
Proof.
  unfold reduce. revert cnt sum0.
  induction items as [| itm items IH]; intros cnt sum0; simpl.
  - reflexivity.
  - apply IH.
Qed.

Lemma reduce_totals (items : list item) :
  reduce add_item (0%float, 0%float) items =
  (item_count items, total_of_rounded_lines items).
Proof. apply reduce_add_item. Qed.

(** What [createOrder] does on a store that accepts the insert. *)
Lemma createOrder_inserts (userID : Z) (items : list item) (db : database)
      (t : Orders.table) :
  is_open db = true ->
  orders db = Some t ->
  PrimFloat.is_nan (item_count items) = false ->
  PrimFloat.is_nan (total_of_rounded_lines items) = false ->
  let id := Sqlite.next_id Orders.id (Orders.rows t) (Orders.seq t) in
  createOrder userID (Some items) db =
  (Return (OK (IdData id)), with_order (new_order id userID items) t db).
Proof.
  intros Hopen Ht Hcnt Hsum id.
  unfold createOrder. rewrite reduce_totals.
  run_promise. unfold Sqlite.run, Sqlite.is_null.
  rewrite Hopen, Ht, Hcnt, Hsum. simpl. reflexivity.
Qed.

End Totals.

Lemma per_line_differs_from_once :
  total_of_rounded_lines half_cent_items = 2%float /\
  rounded_total half_cent_items = 1%float.
Proof. split; vm_compute; reflexivity. Qed.

(** C1 (as amended): for the item list
    [{price:1000,quantity:2},{price:250,quantity:1}], on a store that is open
    and has the [orders] table, [createOrder] derives itemCount = 3 and
    totalPrice = 225000 (each line is quantity × price × 100, rounded) and
    inserts the order row with is_paid = 0 and is_delivered = 0. *)
Theorem createOrder_example (userID : Z) (db : database) (t : Orders.table) :
  is_open db = true ->
  orders db = Some t ->
  reduce add_item (0%float, 0%float) example_items = (3%float, 225000%float) /\
  exists id r,
    createOrder userID (Some example_items) db
      = (Return (OK (IdData id)), with_order r t db) /\
    order_rows (with_order r t db) = (Orders.rows t ++ [r])%list /\
    Orders.id r = id /\ Orders.uid r = userID /\
    Orders.item_numbers r = 3%float /\
    Orders.total_price r = 225000%float /\
    Orders.is_paid r = 0 /\ Orders.is_delivered r = 0.
Proof.
  intros Hopen Ht. split; [ reflexivity | ].
  eexists; eexists. split.
  - apply createOrder_inserts; [ exact Hopen | exact Ht | reflexivity | reflexivity ].
  - repeat split; reflexivity.
Qed.

Lemma createOrder_example_witness :
  exists id r,
    createOrder 7 (Some example_items) loaded
      = (Return (OK (IdData id)), with_order r Orders.empty loaded) /\
    Orders.item_numbers r = 3%float /\ Orders.total_price r = 225000%float.
Proof.
  destruct (createOrder_example 7 loaded Orders.empty eq_refl eq_refl)
    as [_ [id [r [H [_ [_ [_ [Hn [Hp _]]]]]]]]].
  exists id, r. repeat split; assumption.
Defined.

(** C1 as stated fails: on the loaded store the derived pair is not
    (3, 2250), and no row with total_price = 2250 is inserted. *)
Lemma createOrder_example_total_not_2250 :
  reduce add_item (0%float, 0%float) example_items <> (3%float, 2250%float) /\
  ~ (exists r,
       In r (order_rows (snd (createOrder 7 (Some example_items) loaded))) /\
       Orders.item_numbers r = 3%float /\ Orders.total_price r = 2250%float /\
       Orders.is_paid r = 0 /\ Orders.is_delivered r = 0).
Proof.
  split.
  - intros H. apply (f_equal snd) in H. revert H.
    apply float_neq; reflexivity.
  - intros [r [Hin [_ [Hp _]]]].
    vm_compute in Hin. destruct Hin as [<- | []].
    revert Hp. apply float_neq; reflexivity.
Qed.

(** When a sum is NaN the INSERT violates NOT NULL: no row, an error. *)
Lemma createOrder_nan (userID : Z) (items : list item) (db : database)
      (t : Orders.table) :
  is_open db = true ->
  orders db = Some t ->
  PrimFloat.is_nan (item_count items) = true \/
  PrimFloat.is_nan (total_of_rounded_lines items) = true ->
  createOrder userID (Some items) db = (Return (Error "Failed to insert orders!"), db).
Proof.
  intros Hopen Ht Hnan.
  unfold createOrder. rewrite reduce_totals.
  run_promise. unfold Sqlite.run, Sqlite.is_null. rewrite Hopen, Ht. simpl.
  destruct Hnan as [H | H]; rewrite H.
  - reflexivity.
  - destruct (PrimFloat.is_nan (item_count items)); reflexivity.
Qed.

(** [Math.round] on multiples of 6.25, through the total of a one-line
    order: floor (6.25 n + 1/2), a tie (even [n]) going up for negative
    [n] too. *)
Lemma sixteenth_lines_rounded :
  Forall (fun n => total_of_rounded_lines [sixteenth_line n]
                   = Math.of_Z ((25 * n + 2) / 4))
         small_quantities.
Proof.
  let l := eval vm_compute in small_quantities in change small_quantities with l.
  repeat (apply List.Forall_cons; [ vm_compute; reflexivity | ]).
  apply List.Forall_nil.
Qed.

Lemma small_quantity (n : Z) : -200 <= n <= 200 -> In n small_quantities.
Proof.
  intros Hn. unfold small_quantities. apply in_map_iff.
  exists (Z.to_nat (n + 200)). split; [ lia | ].
  apply in_seq. lia.
Qed.

(** C2 (as amended): for every list of items with numeric price and
    quantity, [createOrder] derives item_numbers as the sum of the
    quantities and total_price as the sum over the lines of
    round(quantity × price × 100): rounding is applied per line and then
    summed, not once to the overall sum.  On a store that is open and has
    the [orders] table it inserts the row with these two values when neither
    sum is NaN; when a sum is NaN it inserts nothing and answers 'Failed to
    insert orders!'.  The rounding is to the nearest integer, a tie going
    up: a line of n units at 0.0625 (-200 <= n <= 200) is worth
    floor (6.25 n + 1/2); on two lines of 0.005859375 rounding per line
    gives 2 where rounding the sum once gives 1. *)
Theorem createOrder_rounds_each_line (userID : Z) (items : list item)
        (db : database) (t : Orders.table) :
  is_open db = true ->
  orders db = Some t ->
  reduce add_item (0%float, 0%float) items
    = (sum (map quantity items), sum (map line_total items)) /\
  (PrimFloat.is_nan (item_count items) = false ->
   PrimFloat.is_nan (total_of_rounded_lines items) = false ->
   exists id r,
     createOrder userID (Some items) db
       = (Return (OK (IdData id)), with_order r t db) /\
     order_rows (with_order r t db) = (Orders.rows t ++ [r])%list /\
     Orders.item_numbers r = sum (map quantity items) /\
     Orders.total_price r = sum (map line_total items)) /\
  (PrimFloat.is_nan (item_count items) = true \/
   PrimFloat.is_nan (total_of_rounded_lines items) = true ->
   createOrder userID (Some items) db
     = (Return (Error "Failed to insert orders!"), db)) /\
  (forall n, -200 <= n <= 200 ->
             total_of_rounded_lines [sixteenth_line n] = Math.of_Z ((25 * n + 2) / 4)) /\
  total_of_rounded_lines half_cent_items = 2%float /\
  rounded_total half_cent_items = 1%float.
Proof.
  intros Hopen Ht. split; [ apply reduce_totals | ].
  split; [ | split; [ | split; [ | split ] ] ].
  - intros Hcnt Hsum. eexists; eexists. split.
    + apply createOrder_inserts; eassumption.
    + repeat split; reflexivity.
  - exact (createOrder_nan userID items db t Hopen Ht).
  - intros n Hn.
    exact (proj1 (List.Forall_forall _ _) sixteenth_lines_rounded n (small_quantity n Hn)).
  - reflexivity.
  - reflexivity.
Qed.

Lemma createOrder_rounds_each_line_witness :
  reduce add_item (0%float, 0%float) half_cent_items = (2%float, 2%float) /\
  createOrder 7 (Some overflow_items) loaded
    = (Return (Error "Failed to insert orders!"), loaded) /\
  total_of_rounded_lines [sixteenth_line 2] = 13%float /\
  total_of_rounded_lines [sixteenth_line (-2)] = (-12)%float.
Proof.
  destruct (createOrder_rounds_each_line 7 half_cent_items loaded Orders.empty
              eq_refl eq_refl) as [H _].
  destruct (createOrder_rounds_each_line 7 overflow_items loaded Orders.empty
              eq_refl eq_refl) as [_ [_ [Hnan [Hround _]]]].
  split; [ exact H | split; [ | split ] ].
  - apply Hnan. right. reflexivity.
  - apply (Hround 2). lia.
  - apply (Hround (-2)). lia.
Defined.

(** C2 as stated fails: the two lines of [overflow_items] have finite
    numeric prices and quantities, yet [createOrder] inserts no row for
    them (their rounded totals are +Infinity and -Infinity, the sum NaN). *)
Lemma createOrder_overflow_inserts_nothing :
  ~ (exists r,
       In r (order_rows (snd (createOrder 7 (Some overflow_items) loaded))) /\
       Orders.item_numbers r = sum (map quantity overflow_items) /\
       Orders.total_price r = sum (map line_total overflow_items)).
Proof. intros [r [Hin _]]. vm_compute in Hin. exact Hin. Qed.

(* ===================================================================== *)
(** ** The uniform envelope *)
(* ===================================================================== *)

Lemma envelope_shape (r : envelope) : is_envelope r.
Proof. destruct r; [ left | right ]; reflexivity. Qed.

Lemma ret_returns {A : Type} (a : A) (db : database) :
  exists a' db', ret a db = (Return a', db').
Proof. now exists a, db. Qed.

#[local] Hint Resolve ret_returns : promise.

(** C3 (as amended): every repository operation, on every state of the
    store, when it is called with its argument object and, for
    [createOrder], with an [items] array of lines with numeric price and
    quantity that [JSON.stringify] can write, returns a value of the uniform
    envelope shape and lets no exception escape to the caller: whatever a
    statement throws (closed connection, missing table, violated
    constraint) ends in an error envelope. *)
Theorem operations_return_envelopes (op : operation) (db : database) :
  well_formed op ->
  exists r db', call op db = (Return r, db') /\ is_envelope r.
Proof.
  intros Hwf.
  assert (H : exists r db', call op db = (Return r, db')).
  { destruct op as [email | name email password | email password
                   | userID name password | email | | | userID
                   | userID [items |] | orderID isPaid isDelivered
                   | uid items | uid | userID bad | f]; simpl in *;
      try (apply try_catch_returns; intros; apply ret_returns);
      try (destruct Hwf).
    - unfold updateUser. destruct (not_ name || not_ password).
      + apply ret_returns.
      + apply try_catch_returns; intros; apply ret_returns.
    - unfold createOrder.
      destruct (reduce add_item (0%float, 0%float) items) as [itemNumber totalPrice].
      apply try_catch_returns; intros; apply ret_returns. }
  destruct H as [r [db' H]]. exists r, db'. split; [ exact H | apply envelope_shape ].
Qed.

Lemma operations_return_envelopes_witness :
  exists r db', call (CreateOrder 7 (Some example_items)) (set_closed loaded)
                = (Return r, db') /\ is_envelope r.
Proof. apply (operations_return_envelopes (CreateOrder 7 (Some example_items))). exact I. Defined.

(** What [createOrder] does when the argument object has no [items]. *)
Lemma createOrder_without_items :
  createOrder 7 None loaded
  = (Throw (TypeError "Cannot read properties of undefined (reading 'reduce')"), loaded).
Proof. reflexivity. Qed.

(** C3 as stated fails: for the input [{ userID: 7 }], without [items],
    [createOrder] returns no envelope; the TypeError of [items.reduce],
    raised before the [try] block, reaches the caller. *)
Lemma createOrder_without_items_throws :
  ~ (exists r db', call (CreateOrder 7 None) loaded = (Return r, db') /\ is_envelope r).
Proof. intros [r [db' [H _]]]. discriminate H. Qed.

(** The other calls that throw before a [try] block: [getCart()] without
    its argument, and [createOrder] on lines one of which carries a BigInt. *)
Lemma malformed_calls_throw :
  call (WithoutArgument OfGetCart) loaded
  = (Throw (TypeError "Cannot destructure property 'uid' of 'undefined' as it is undefined."),
     loaded) /\
  call (CreateOrderMalformed 7 (BigIntProperty example_items)) loaded
  = (Throw (TypeError "Do not know how to serialize a BigInt"), loaded).
Proof. split; reflexivity. Qed.

(* ===================================================================== *)
(** ** The cart *)
(* ===================================================================== *)

(** A value without NaN, infinities and negative zero is written as it is. *)
Lemma number_doc_exact (n : number) :
  JSON.exact_number n = true -> JSON.number_doc n = JNum n.
Proof.
  unfold JSON.exact_number, JSON.number_doc. intros H.
  apply andb_true_iff in H as [Hfin Hz]. rewrite Hfin.
  apply negb_true_iff in Hz. rewrite Hz. reflexivity.
Qed.

Lemma document_exact : forall v : json, JSON.exact v = true -> JSON.document v = v.
Proof.
  fix IH 1. intros [ | b | n | s | elems | props ]; simpl; intros H;
    try reflexivity.
  - apply number_doc_exact, H.
  - f_equal. induction elems as [| x xs IHxs]; simpl in *; [ reflexivity | ].
    apply andb_true_iff in H as [Hx Hxs].
    f_equal; [ apply IH, Hx | apply IHxs, Hxs ].
  - f_equal. induction props as [| [k x] xs IHxs]; simpl in *; [ reflexivity | ].
    apply andb_true_iff in H as [Hx Hxs].
    f_equal; [ f_equal; apply IH, Hx | apply IHxs, Hxs ].
Qed.

Lemma parse_stringify (v : json) :
  JSON.exact v = true -> JSON.parse (JSON.stringify v) = v.
Proof. intros H. unfold JSON.stringify, JSON.parse. apply document_exact, H. Qed.

(** [updateCart] on a store that has the table: the row of [uid] now holds
    the new text, the connection stays open. *)
Lemma updateCart_stores (uid : Z) (items : list json) (db : database)
      (t : Cart.table) :
  is_open db = true ->
  cart db = Some t ->
  exists info db' r,
    updateCart uid items db = (Return (OK (ResultData info)), db') /\
    is_open db' = true /\
    cart db' = Some (<[uid := r]> t) /\
    Cart.items r = JSON.stringify (JArr items).
Proof.
  intros Hopen Ht. unfold updateCart. run_promise.
  unfold Sqlite.run. rewrite Hopen, Ht. simpl.
  destruct (t !! uid) as [old |]; simpl;
    eexists; eexists; eexists; (split; [ reflexivity | ]);
    (split; [ exact Hopen | split; reflexivity ]).
Qed.

(** [getCart] on a store that has the table. *)
Lemma getCart_reads (uid : Z) (db : database) (t : Cart.table) :
  is_open db = true ->
  cart db = Some t ->
  getCart uid db =
  (Return (OK (ItemsData match t !! uid with
                         | Some r => JSON.parse (Cart.items r)
                         | None => JArr []
                         end)), db).
Proof.
  intros Hopen Ht. unfold getCart. run_promise.
  unfold Sqlite.get, Sqlite.all. rewrite Hopen, Ht. simpl.
  destruct (t !! uid); reflexivity.
Qed.

(** [updateCart] then [getCart]: what is read is the document of what was
    written. *)
Lemma getCart_after_updateCart (u : Z) (X : list json) (db : database)
      (t : Cart.table) :
  is_open db = true ->
  cart db = Some t ->
  exists db1 t1,
    snd (updateCart u X db) = db1 /\
    is_open db1 = true /\ cart db1 = Some t1 /\
    getCart u db1 = (Return (OK (ItemsData (JArr (map JSON.document X)))), db1).
Proof.
  intros Hopen Ht.
  destruct (updateCart_stores u X db t Hopen Ht)
    as [i1 [db1 [r1 [E1 [Hopen1 [Ht1 Hr1]]]]]].
  exists db1, (<[u := r1]> t). rewrite E1. simpl.
  split; [ reflexivity | split; [ exact Hopen1 | split; [ exact Ht1 | ] ] ].
  rewrite (getCart_reads u db1 _ Hopen1 Ht1).
  now rewrite lookup_insert_eq, Hr1.
Qed.

(** C4 (as amended): cart updates are wholesale replacement.  On a store
    that is open and has the [cart] table, for every user id and item lists
    X and Y, [updateCart(u, X)] then [updateCart(u, Y)] then [getCart(u)]
    returns OK with Y as its JSON text spells it, never a merge of X and Y,
    and [updateCart(u, X)] then [getCart(u)] returns X as its JSON text
    spells it: exactly Y, or X, when the list holds no NaN, Infinity or
    negative zero, which come back as null, null and 0. *)
Theorem updateCart_replaces (u : Z) (X Y : list json) (db : database)
        (t : Cart.table) :
  is_open db = true ->
  cart db = Some t ->
  fst ((_ <- updateCart u X ;; _ <- updateCart u Y ;; getCart u) db)
    = Return (OK (ItemsData (JArr (map JSON.document Y)))) /\
  fst ((_ <- updateCart u X ;; getCart u) db)
    = Return (OK (ItemsData (JArr (map JSON.document X)))) /\
  (JSON.exact (JArr Y) = true ->
   fst ((_ <- updateCart u X ;; _ <- updateCart u Y ;; getCart u) db)
     = Return (OK (ItemsData (JArr Y)))) /\
  (JSON.exact (JArr X) = true ->
   fst ((_ <- updateCart u X ;; getCart u) db)
     = Return (OK (ItemsData (JArr X)))).
Proof.
  intros Hopen Ht.
  destruct (getCart_after_updateCart u X db t Hopen Ht)
    as [db1 [t1 [E1 [Hopen1 [Ht1 G1]]]]].
  destruct (getCart_after_updateCart u Y db1 t1 Hopen1 Ht1)
    as [db2 [t2 [E2 [_ [_ G2]]]]].
  assert (R1 : exists info, updateCart u X db = (Return (OK (ResultData info)), db1)).
  { destruct (updateCart_stores u X db t Hopen Ht) as [i [d [r [E _]]]].
    exists i. rewrite E in E1. simpl in E1. now rewrite <- E1. }
  assert (R2 : exists info, updateCart u Y db1 = (Return (OK (ResultData info)), db2)).
  { destruct (updateCart_stores u Y db1 t1 Hopen1 Ht1) as [i [d [r [E _]]]].
    exists i. rewrite E in E2. simpl in E2. now rewrite <- E2. }
  destruct R1 as [i1 R1]. destruct R2 as [i2 R2].
  assert (HXY : fst ((_ <- updateCart u X ;; _ <- updateCart u Y ;; getCart u) db)
                = Return (OK (ItemsData (JArr (map JSON.document Y))))).
  { unfold bind. now rewrite R1, R2, G2. }
  assert (HX : fst ((_ <- updateCart u X ;; getCart u) db)
               = Return (OK (ItemsData (JArr (map JSON.document X))))).
  { unfold bind. now rewrite R1, G1. }
  split; [ exact HXY | split; [ exact HX | split ] ].
  - intros HY. rewrite HXY.
    change (JArr (map JSON.document Y)) with (JSON.document (JArr Y)).
    now rewrite (document_exact (JArr Y) HY).
  - intros HXe. rewrite HX.
    change (JArr (map JSON.document X)) with (JSON.document (JArr X)).
    now rewrite (document_exact (JArr X) HXe).
Qed.

Lemma updateCart_replaces_witness :
  fst ((_ <- updateCart 3 [JStr "pen"; JStr "ink"] ;;
        _ <- updateCart 3 [JObj [("id", JNum 5); ("quantity", JNum 2)]] ;;
        getCart 3) loaded)
    = Return (OK (ItemsData (JArr [JObj [("id", JNum 5); ("quantity", JNum 2)]]))) /\
  fst ((_ <- updateCart 3 [JStr "pen"; JStr "ink"] ;; getCart 3) loaded)
    = Return (OK (ItemsData (JArr [JStr "pen"; JStr "ink"]))).
Proof.
  destruct (updateCart_replaces 3 [JStr "pen"; JStr "ink"]
              [JObj [("id", JNum 5); ("quantity", JNum 2)]] loaded ∅
              eq_refl eq_refl) as [_ [_ [HY HX]]].
  split; [ apply HY | apply HX ]; reflexivity.
Defined.

(** C4 as stated fails: a cart holding Infinity (a JSON body can carry
    1e999) comes back holding null, and one holding negative zero comes back
    holding 0. *)
Lemma updateCart_infinity_comes_back_null :
  fst ((_ <- updateCart 3 [JNum PrimFloat.infinity] ;; getCart 3) loaded)
    <> Return (OK (ItemsData (JArr [JNum PrimFloat.infinity]))) /\
  fst ((_ <- updateCart 3 [JNum PrimFloat.neg_zero] ;; getCart 3) loaded)
    <> Return (OK (ItemsData (JArr [JNum PrimFloat.neg_zero]))).
Proof.
  split; intros H.
  - vm_compute in H. discriminate H.
  - apply (f_equal (fun c => match c with
                             | Return (OK (ItemsData (JArr (JNum n :: _)))) =>
                                 PrimFloat.get_sign n
                             | _ => false
                             end)) in H.
    vm_compute in H. discriminate H.
Qed.

(** C8: for every user id with no cart row, [getCart] returns OK with an
    empty item sequence, not an error (the store being open and having the
    [cart] table), and leaves the store as it is. *)
Theorem getCart_without_row (uid : Z) (db : database) (t : Cart.table) :
  is_open db = true ->
  cart db = Some t ->
  t !! uid = None ->
  getCart uid db = (Return (OK (ItemsData (JArr []))), db).
Proof.
  intros Hopen Ht Hnone. rewrite (getCart_reads uid db t Hopen Ht).
  now rewrite Hnone.
Qed.

Lemma getCart_without_row_witness :
  getCart 3 loaded = (Return (OK (ItemsData (JArr []))), loaded).
Proof. apply (getCart_without_row 3 loaded ∅); reflexivity. Defined.

(* ===================================================================== *)
(** ** Orders *)
(* ===================================================================== *)

Lemma update_marks_paid (orderID : Z) (rows : list Orders.row) :
  Forall2 (marked_paid orderID) rows
          (Sqlite.update (Sqlite.order_has_id orderID) (Sqlite.set_flags 1 0) rows).
Proof.
  unfold Sqlite.update, Sqlite.order_has_id.
  induction rows as [| r rows IH]; simpl; constructor; [ | exact IH ].
  destruct (Z.eqb_spec (Orders.id r) orderID) as [Heq | Hne].
  - split; [ repeat split | split; [ intros _; split; reflexivity | ] ].
    intros Hne. now destruct Hne.
  - split; [ repeat split | split; [ | reflexivity ] ].
    intros Heq. now destruct Hne.
Qed.

Lemma count_existing {R : Type} (p : R -> bool) (rows : list R) (r : R) :
  In r rows -> p r = true -> (Sqlite.count p rows =? 0) = false.
Proof.
  intros Hin Hp. unfold Sqlite.count.
  assert (Hf : In r (List.filter p rows)) by (apply filter_In; now split).
  destruct (List.filter p rows); [ destruct Hf | reflexivity ].
Qed.

(** C9 (as amended): [updateOrder(id, 1, 0)] on an existing order sets
    is_paid to 1 and is_delivered to 0 in that order's row; the other fields
    of the row (id, uid, item_numbers, total_price, order_items) and all
    other rows are unchanged, as are the other tables. *)
Theorem updateOrder_sets_both_flags (orderID : Z) (db : database)
        (t : Orders.table) (r : Orders.row) :
  is_open db = true ->
  orders db = Some t ->
  In r (Orders.rows t) ->
  Orders.id r = orderID ->
  exists info db',
    updateOrder orderID 1 0 db = (Return (OK (ResultData info)), db') /\
    Forall2 (marked_paid orderID) (Orders.rows t) (order_rows db') /\
    users db' = users db /\ cart db' = cart db.
Proof.
  intros Hopen Ht Hin Hid. unfold updateOrder. run_promise.
  unfold Sqlite.run. rewrite Hopen, Ht. simpl.
  rewrite (count_existing _ _ r Hin)
    by (unfold Sqlite.order_has_id; now apply Z.eqb_eq).
  eexists; eexists. split; [ reflexivity | ].
  split; [ apply update_marks_paid | split; reflexivity ].
Qed.

Lemma updateOrder_sets_both_flags_witness :
  exists info db',
    updateOrder 1 1 0 order_placed = (Return (OK (ResultData info)), db') /\
    Forall2 (marked_paid 1) (order_rows order_placed) (order_rows db') /\
    users db' = users order_placed /\ cart db' = cart order_placed.
Proof.
  apply (updateOrder_sets_both_flags 1 order_placed
           {| Orders.rows := order_rows order_placed; Orders.seq := 1 |}
           (new_order 1 7 example_items));
    [ reflexivity | reflexivity | left; reflexivity | reflexivity ].
Defined.

(** C9 as stated fails: on an order that is paid and delivered,
    [updateOrder(1, 1, 0)] changes is_delivered from 1 to 0. *)
Lemma updateOrder_resets_is_delivered :
  ~ Forall2 only_is_paid_changed
      (order_rows order_delivered)
      (order_rows (snd (updateOrder 1 1 0 order_delivered))).
Proof.
  intros H. vm_compute in H. inversion H as [| r r' l l' [_ Hd] _]; subst.
  discriminate Hd.
Qed.

(* ===================================================================== *)
(** ** Users *)
(* ===================================================================== *)

Lemma head_filter {R : Type} (p : R -> bool) (rows : list R) :
  head (List.filter p rows) = List.find p rows.
Proof.
  induction rows as [| r rows IH]; simpl; [ reflexivity | ].
  destruct (p r); [ reflexivity | exact IH ].
Qed.

(** The three outcomes of the pre-check, read off the SELECT. *)
Lemma checkEmailTaken_cases (email : string) (db : database) :
  checkEmailTaken email db =
  (Return match Sqlite.get (SelectUserByEmail email) db with
          | inl e => Error (message e)
          | inr (Some _) => Error "The email is already used."
          | inr None => OK NoData
          end, db).
Proof.
  unfold checkEmailTaken. run_promise.
  destruct (Sqlite.get (SelectUserByEmail email) db) as [e | [r |]]; reflexivity.
Qed.

(** [createUser] hands a failed pre-check back and runs no INSERT. *)
Lemma createUser_after_failed_check (name email password msg : string)
      (db db1 : database) :
  checkEmailTaken email db = (Return (Error msg), db1) ->
  createUser name email password db = (Return (Error msg), db) /\ db1 = db.
Proof.
  intros H. assert (Hdb : db1 = db).
  { rewrite checkEmailTaken_cases in H. now inversion H. }
  subst db1. split; [ | reflexivity ].
  unfold createUser, try_catch, bind. rewrite H. reflexivity.
Qed.

Lemma select_taken_email (email : string) (db : database) (t : Users.table)
      (r : Users.row) :
  is_open db = true ->
  users db = Some t ->
  In r (Users.rows t) ->
  Users.email r = email ->
  exists r', Sqlite.get (SelectUserByEmail email) db = inr (Some r').
Proof.
  intros Hopen Ht Hin Hemail. unfold Sqlite.get, Sqlite.all.
  rewrite Hopen, Ht. simpl. rewrite head_filter.
  destruct (List.find (Sqlite.user_has_email email) (Users.rows t)) as [r' |] eqn:Hfind.
  - now exists r'.
  - apply (find_none _ _ Hfind) in Hin. unfold Sqlite.user_has_email in Hin.
    rewrite Hemail, String.eqb_refl in Hin. discriminate Hin.
Qed.

(** C5: for every email already present in the [users] table, [createUser]
    with that email returns the conflict result, not OK, and leaves the
    store, the existing row included, as it was: nothing is inserted. *)
Theorem createUser_taken_email (name email password : string) (db : database)
        (t : Users.table) (r : Users.row) :
  is_open db = true ->
  users db = Some t ->
  In r (Users.rows t) ->
  Users.email r = email ->
  createUser name email password db
    = (Return (Error "The email is already used."), db) /\
  status (Error "The email is already used.") <> "OK" /\
  In r (user_rows (snd (createUser name email password db))).
Proof.
  intros Hopen Ht Hin Hemail.
  destruct (select_taken_email email db t r Hopen Ht Hin Hemail) as [r' Hget].
  assert (Hcheck : checkEmailTaken email db
                   = (Return (Error "The email is already used."), db)).
  { rewrite checkEmailTaken_cases, Hget. reflexivity. }
  destruct (createUser_after_failed_check name email password _ db db Hcheck)
    as [Hcreate _].
  rewrite Hcreate. split; [ reflexivity | split; [ discriminate | ] ].
  simpl. unfold user_rows. rewrite Ht. exact Hin.
Qed.

Lemma createUser_taken_email_witness :
  createUser "Bob" "ann@example.com" "hunter2" ann_registered
    = (Return (Error "The email is already used."), ann_registered).
Proof.
  apply (createUser_taken_email "Bob" "ann@example.com" "hunter2" ann_registered
           {| Users.rows := user_rows ann_registered; Users.seq := 1 |}
           {| Users.id := 1; Users.name := "Ann";
              Users.email := "ann@example.com"; Users.password := "secret" |});
    [ reflexivity | reflexivity | left; reflexivity | reflexivity ].
Defined.

(** C6: for every user id, if the name is empty or the password is empty,
    [updateUser] returns the validation error and the store, whatever its
    state, is left untouched. *)
Theorem updateUser_rejects_empty (userID : Z) (name password : string)
        (db : database) :
  name = "" \/ password = "" ->
  updateUser userID name password db
    = (Return (Error "New Name and Password can't be empty."), db).
Proof.
  intros [-> | ->]; unfold updateUser, not_; simpl.
  - reflexivity.
  - rewrite orb_true_r. reflexivity.
Qed.

Lemma updateUser_rejects_empty_witness :
  updateUser 1 "Ann" "" ann_registered
    = (Return (Error "New Name and Password can't be empty."), ann_registered).
Proof. apply (updateUser_rejects_empty 1 "Ann" "" ann_registered). right. reflexivity. Defined.

(** C7: [checkUser] matches on equality of both email and password.  On a
    store that is open and has the [users] table: when a row matches both,
    it returns OK with the id, name and email of such a row; when no row
    matches both, it returns the one error 'Wrong email or password.',
    whichever of the two was wrong.  The store is left as it was. *)
Theorem checkUser_matches_both (email password : string) (db : database)
        (t : Users.table) :
  is_open db = true ->
  users db = Some t ->
  ((exists r, In r (Users.rows t) /\
              Users.email r = email /\ Users.password r = password) ->
   exists r, In r (Users.rows t) /\
             Users.email r = email /\ Users.password r = password /\
             checkUser email password db
               = (Return (OK (UserData (Users.id r) (Users.name r) (Users.email r))), db)) /\
  ((forall r, In r (Users.rows t) ->
              ~ (Users.email r = email /\ Users.password r = password)) ->
   checkUser email password db = (Return (Error "Wrong email or password."), db)).
Proof.
  intros Hopen Ht.
  assert (Hrun : checkUser email password db =
                 (Return match List.find (Sqlite.user_has_email_password email password)
                                         (Users.rows t) with
                         | Some res => OK (UserData (Users.id res) (Users.name res) email)
                         | None => Error "Wrong email or password."
                         end, db)).
  { unfold checkUser. run_promise. unfold Sqlite.get, Sqlite.all.
    rewrite Hopen, Ht. simpl. rewrite head_filter.
    destruct (List.find _ (Users.rows t)); reflexivity. }
  assert (Hp : forall r, Sqlite.user_has_email_password email password r = true <->
                         Users.email r = email /\ Users.password r = password).
  { intros r. unfold Sqlite.user_has_email_password.
    rewrite andb_true_iff, !String.eqb_eq. reflexivity. }
  rewrite Hrun. split.
  - intros [r [Hin Hr]].
    destruct (List.find _ (Users.rows t)) as [res |] eqn:Hfind.
    + apply find_some in Hfind as [Hin' Hres]. apply Hp in Hres as [He Hpw].
      exists res. rewrite He. repeat split; assumption.
    + apply (find_none _ _ Hfind) in Hin. apply Hp in Hr. congruence.
  - intros Hnone.
    destruct (List.find _ (Users.rows t)) as [res |] eqn:Hfind; [ | reflexivity ].
    apply find_some in Hfind as [Hin Hres]. apply Hp in Hres.
    destruct (Hnone res Hin Hres).
Qed.

Lemma checkUser_matches_both_witness :
  checkUser "ann@example.com" "secret" ann_registered
    = (Return (OK (UserData 1 "Ann" "ann@example.com")), ann_registered) /\
  checkUser "ann@example.com" "guess" ann_registered
    = (Return (Error "Wrong email or password."), ann_registered).
Proof.
  split.
  - destruct (checkUser_matches_both "ann@example.com" "secret" ann_registered
                {| Users.rows := user_rows ann_registered; Users.seq := 1 |}
                eq_refl eq_refl) as [Hsome _].
    destruct Hsome as [r [Hin [_ [_ Hrun]]]].
    + eexists. split; [ left; reflexivity | split; reflexivity ].
    + destruct Hin as [<- | []]. exact Hrun.
  - apply (checkUser_matches_both "ann@example.com" "guess" ann_registered
             {| Users.rows := user_rows ann_registered; Users.seq := 1 |}
             eq_refl eq_refl).
    intros r [<- | []] [_ Hpw]. discriminate Hpw.
Defined.

(** The pre-check on a store without the [users] table, and on a closed
    connection: the message is the one of the exception. *)
Lemma checkEmailTaken_storage_failure :
  checkEmailTaken "ann@example.com" new_file
    = (Return (Error "no such table: users"), new_file) /\
  createUser "Ann" "ann@example.com" "secret" (set_closed loaded)
    = (Return (Error "The database connection is not open"), set_closed loaded).
Proof. split; reflexivity. Qed.

(** C10: whenever the email pre-check inside [createUser] fails, for a
    duplicate email or for a failure of the SELECT, [createUser] returns
    that error envelope unchanged and inserts nothing (the store is left as
    it was).  Both failures carry the status 'error'; they differ in the
    message: the fixed text for a duplicate, the message of the exception
    for a storage failure. *)
Theorem createUser_returns_failed_check (name email password msg : string)
        (db db1 : database) :
  checkEmailTaken email db = (Return (Error msg), db1) ->
  createUser name email password db = (Return (Error msg), db) /\
  db1 = db /\
  status (Error msg) = "error" /\
  ((exists r, Sqlite.get (SelectUserByEmail email) db = inr (Some r) /\
              msg = "The email is already used.") \/
   (exists e, Sqlite.get (SelectUserByEmail email) db = inl e /\
              msg = message e)).
Proof.
  intros H.
  destruct (createUser_after_failed_check name email password msg db db1 H)
    as [Hcreate Hdb].
  repeat split; try assumption.
  rewrite checkEmailTaken_cases in H.
  destruct (Sqlite.get (SelectUserByEmail email) db) as [e | [r |]].
  - right. exists e. split; [ reflexivity | ]. now inversion H.
  - left. exists r. split; [ reflexivity | ]. now inversion H.
  - discriminate H.
Qed.

Lemma createUser_returns_failed_check_witness :
  createUser "Bob" "ann@example.com" "hunter2" ann_registered
    = (Return (Error "The email is already used."), ann_registered) /\
  createUser "Ann" "ann@example.com" "secret" new_file
    = (Return (Error "no such table: users"), new_file).
Proof.
  split.
  - apply (createUser_returns_failed_check "Bob" "ann@example.com" "hunter2"
             "The email is already used." ann_registered ann_registered).
    reflexivity.
  - apply (createUser_returns_failed_check "Ann" "ann@example.com" "secret"
             "no such table: users" new_file new_file).
    reflexivity.
Defined.

(* ===================================================================== *)
(** ** What every operation does to the store *)
(* ===================================================================== *)

(** An operation runs at most one statement for effect, and answers OK when
    that statement went through. *)
Lemma call_effect (op : operation) (db : database) :
  snd (call op db) = db \/
  exists q info d,
    Sqlite.run q db = inr (info, snd (call op db)) /\
    fst (call op db) = Return (OK d).
Proof.
  destruct op as [email | name email password | email password
                 | userID name password | email | | | userID
                 | userID [items |] | orderID isPaid isDelivered
                 | uid items | uid | userID bad | f]; simpl.
  - rewrite checkEmailTaken_cases. now left.
  - unfold createUser, try_catch, bind. rewrite checkEmailTaken_cases.
    destruct (Sqlite.get (SelectUserByEmail email) db) as [e | [r |]]; simpl;
      try (now left).
    unfold dbRun.
    destruct (Sqlite.run (InsertUser name email password) db) as [e | [i d]] eqn:E;
      simpl; [ now left | right; eauto ].
  - unfold checkUser. run_promise.
    destruct (Sqlite.get _ db) as [e | [r |]]; now left.
  - unfold updateUser. destruct (not_ name || not_ password); [ now left | ].
    run_promise.
    destruct (Sqlite.run (UpdateUser name password userID) db) as [e | [i d]] eqn:E;
      simpl; [ now left | right; eauto ].
  - unfold deleteUser. run_promise.
    destruct (Sqlite.run (DeleteUser email) db) as [e | [i d]] eqn:E;
      simpl; [ now left | right; eauto ].
  - unfold getAllUsers. run_promise. destruct (Sqlite.all _ db); now left.
  - unfold getAllOrders. run_promise. destruct (Sqlite.all _ db); now left.
  - unfold getOrdersByUser. run_promise. destruct (Sqlite.all _ db); now left.
  - unfold createOrder.
    destruct (reduce add_item (0%float, 0%float) items) as [itemNumber totalPrice].
    run_promise.
    destruct (Sqlite.run _ db) as [e | [i d]] eqn:E;
      simpl; [ now left | right; eauto ].
  - now left.
  - unfold updateOrder. run_promise.
    destruct (Sqlite.run _ db) as [e | [i d]] eqn:E;
      simpl; [ now left | right; eauto ].
  - unfold updateCart. run_promise.
    destruct (Sqlite.run _ db) as [e | [i d]] eqn:E;
      simpl; [ now left | right; eauto ].
  - unfold getCart. run_promise.
    destruct (Sqlite.get _ db) as [e | [r |]]; now left.
  - now left.
  - now left.
Qed.

(** X1: an operation that does not answer OK, be it an error envelope or
    an exception, has changed nothing in the store. *)
Theorem failure_changes_nothing (op : operation) (db db' : database)
        (c : completion envelope) :
  call op db = (c, db') ->
  (forall d, c <> Return (OK d)) ->
  db' = db.
Proof.
  intros Hcall Hfail.
  destruct (call_effect op db) as [Hsame | [q [info [d [_ Hok]]]]];
    rewrite Hcall in *; simpl in *.
  - exact Hsame.
  - destruct (Hfail d Hok).
Qed.

Lemma failure_changes_nothing_witness :
  snd (updateOrder 1 2 0 order_placed) = order_placed.
Proof.
  apply (failure_changes_nothing (UpdateOrderOp 1 2 0) order_placed
           (snd (updateOrder 1 2 0 order_placed))
           (Return (Error "update order error"))).
  - reflexivity.
  - intros d H. discriminate H.
Defined.

(** X2: the operations that only read (checkEmailTaken, checkUser,
    getAllUsers, getAllOrders, getOrdersByUser, getCart) leave every store
    exactly as it was. *)
Theorem reads_change_nothing (op : operation) (db : database) :
  read_only op = true ->
  snd (call op db) = db.
Proof.
  intros Hro.
  destruct op; simpl in Hro; try discriminate Hro; simpl.
  - rewrite checkEmailTaken_cases. reflexivity.
  - unfold checkUser. run_promise. destruct (Sqlite.get _ db) as [e | [r |]]; reflexivity.
  - unfold getAllUsers. run_promise. destruct (Sqlite.all _ db); reflexivity.
  - unfold getAllOrders. run_promise. destruct (Sqlite.all _ db); reflexivity.
  - unfold getOrdersByUser. run_promise. destruct (Sqlite.all _ db); reflexivity.
  - unfold getCart. run_promise. destruct (Sqlite.get _ db) as [e | [r |]]; reflexivity.
Qed.

Lemma reads_change_nothing_witness :
  snd (call (GetOrdersByUser 7) order_placed) = order_placed.
Proof. apply (reads_change_nothing (GetOrdersByUser 7) order_placed). reflexivity. Defined.

(** Nothing runs on a closed connection. *)
Lemma run_closed (q : statement) (db : database) :
  is_open db = false -> Sqlite.run q db = inl Sqlite.not_open.
Proof. intros H. unfold Sqlite.run. rewrite H. reflexivity. Qed.

Lemma all_closed {R : Type} (q : query R) (db : database) :
  is_open db = false -> Sqlite.all q db = inl Sqlite.not_open.
Proof. intros H. unfold Sqlite.all. rewrite H. reflexivity. Qed.

Lemma get_closed {R : Type} (q : query R) (db : database) :
  is_open db = false -> Sqlite.get q db = inl Sqlite.not_open.
Proof. intros H. unfold Sqlite.get. now rewrite all_closed. Qed.

(** X3: once the connection is closed, every operation, called with its
    argument object and, for [createOrder], with an [items] array of lines
    with numeric price and quantity that [JSON.stringify] can write, answers
    with an error envelope and changes nothing. *)
Theorem closed_connection_errors (op : operation) (db : database) :
  is_open db = false ->
  well_formed op ->
  exists msg, call op db = (Return (Error msg), db).
Proof.
  intros Hclosed Hwf.
  destruct op as [email | name email password | email password
                 | userID name password | email | | | userID
                 | userID [items |] | orderID isPaid isDelivered
                 | uid items | uid | userID bad | f]; simpl in *.
  - rewrite checkEmailTaken_cases, get_closed by assumption. eauto.
  - unfold createUser, try_catch, bind.
    rewrite checkEmailTaken_cases, get_closed by assumption. simpl. eauto.
  - unfold checkUser. run_promise. rewrite get_closed by assumption. eauto.
  - unfold updateUser. destruct (not_ name || not_ password); [ eauto | ].
    run_promise. rewrite run_closed by assumption. eauto.
  - unfold deleteUser. run_promise. rewrite run_closed by assumption. eauto.
  - unfold getAllUsers. run_promise. rewrite all_closed by assumption. eauto.
  - unfold getAllOrders. run_promise. rewrite all_closed by assumption. eauto.
  - unfold getOrdersByUser. run_promise. rewrite all_closed by assumption. eauto.
  - unfold createOrder.
    destruct (reduce add_item (0%float, 0%float) items) as [itemNumber totalPrice].
    run_promise. rewrite run_closed by assumption. eauto.
  - destruct Hwf.
  - unfold updateOrder. run_promise. rewrite run_closed by assumption. eauto.
  - unfold updateCart. run_promise. rewrite run_closed by assumption. eauto.
  - unfold getCart. run_promise. rewrite get_closed by assumption. eauto.
  - destruct Hwf.
  - destruct Hwf.
Qed.

Lemma closed_connection_errors_witness :
  exists msg, call (GetCart 3) (snd (dbClose loaded))
              = (Return (Error msg), snd (dbClose loaded)).
Proof.
  apply (closed_connection_errors (GetCart 3) (snd (dbClose loaded)));
    [ reflexivity | exact I ].
Defined.

(* ===================================================================== *)
(** ** The invariants of the tables *)
(* ===================================================================== *)

Section Invariants.

Lemma max_id_ge {R : Type} (id : R -> Z) (rows : list R) (r : R) :
  In r rows -> id r <= Sqlite.max_id id rows.
Proof.
  induction rows as [| x rows IH]; simpl; intros Hin; [ destruct Hin | ].
  destruct Hin as [-> | Hin]; [ lia | specialize (IH Hin); lia ].
Qed.

Lemma next_id_above {R : Type} (id : R -> Z) (rows : list R) (seq : Z) (r : R) :
  In r rows -> id r < Sqlite.next_id id rows seq.
Proof.
  intros Hin. apply (max_id_ge id) in Hin. unfold Sqlite.next_id. lia.
Qed.

Lemma next_id_above_seq {R : Type} (id : R -> Z) (rows : list R) (seq : Z) :
  seq < Sqlite.next_id id rows seq.
Proof. unfold Sqlite.next_id. lia. Qed.

Lemma NoDup_snoc {A : Type} (l : list A) (x : A) :
  List.NoDup l -> ~ In x l -> List.NoDup (l ++ [x]).
Proof.
  intros Hl Hx. induction Hl as [| y l Hy Hl IH]; simpl.
  - constructor; [ intros [] | constructor ].
  - constructor.
    + rewrite in_app_iff. intros [H | [H | []]]; [ now apply Hy | ].
      apply Hx. now left.
    + apply IH. intros H. apply Hx. now right.
Qed.

Lemma NoDup_map_filter {A B : Type} (f : A -> B) (p : A -> bool) (l : list A) :
  List.NoDup (map f l) -> List.NoDup (map f (List.filter p l)).
Proof.
  induction l as [| x l IH]; simpl; intros H; [ constructor | ].
  inversion H as [| y l' Hx Hl]; subst.
  destruct (p x); simpl; [ constructor | now apply IH ].
  - intros Hin. apply Hx. apply in_map_iff in Hin as [z [Hz Hin]].
    apply filter_In in Hin as [Hin _]. apply in_map_iff. now exists z.
  - now apply IH.
Qed.

Lemma map_update {A B : Type} (g : A -> B) (p : A -> bool) (f : A -> A)
      (l : list A) :
  (forall x, g (f x) = g x) -> map g (Sqlite.update p f l) = map g l.
Proof.
  intros Hg. unfold Sqlite.update. rewrite map_map. apply map_ext.
  intros x. destruct (p x); [ apply Hg | reflexivity ].
Qed.

Lemma fresh_not_in (email : string) (rows : list Users.row) :
  existsb (Sqlite.user_has_email email) rows = false ->
  ~ In email (map Users.email rows).
Proof.
  intros Hex Hin. apply in_map_iff in Hin as [r [He Hin]].
  assert (H : existsb (Sqlite.user_has_email email) rows = true).
  { apply existsb_exists. exists r. split; [ exact Hin | ].
    unfold Sqlite.user_has_email. rewrite He. apply String.eqb_refl. }
  rewrite H in Hex. discriminate Hex.
Qed.

Lemma id_not_in {R : Type} (id : R -> Z) (rows : list R) (seq : Z) :
  ~ In (Sqlite.next_id id rows seq) (map id rows).
Proof.
  intros Hin. apply in_map_iff in Hin as [r [He Hin]].
  apply (next_id_above id rows seq) in Hin. lia.
Qed.

Lemma Forall_le_snoc {R : Type} (id : R -> Z) (rows : list R) (seq : Z) (r : R) :
  id r = Sqlite.next_id id rows seq ->
  Forall (fun x => id x <= Sqlite.next_id id rows seq) (rows ++ [r]).
Proof.
  intros Hid. apply List.Forall_app. split.
  - apply List.Forall_forall. intros x Hin.
    apply (next_id_above id rows seq) in Hin. lia.
  - constructor; [ lia | constructor ].
Qed.

(** A statement that goes through keeps the invariants. *)
Lemma run_consistent (q : statement) (db db' : database) (info : run_info) :
  Sqlite.run q db = inr (info, db') -> consistent db -> consistent db'.
Proof.
  unfold Sqlite.run. destruct (negb (is_open db)); [ discriminate | ].
  intros Hrun Hc. pose proof Hc as [Hu Ho]. revert Hrun.
  destruct q as [ | | | name email password | name password id | email
                | uid n p txt paid delivered | orderID isPaid isDelivered
                | uid itemstr ].
  - destruct (users db) as [t |] eqn:Et; intros [= <- <-]; [ exact Hc | ].
    split; simpl; [ | exact (proj2 Hc) ].
    intros t [= <-]. repeat split; constructor.
  - destruct (orders db) as [t |] eqn:Et; intros [= <- <-]; [ exact Hc | ].
    split; simpl; [ exact (proj1 Hc) | ].
    intros t [= <-]. repeat split; constructor.
  - destruct (cart db) as [t |] eqn:Et; intros [= <- <-]; (split; simpl; [ exact (proj1 Hc) | exact (proj2 Hc) ]).
  - destruct (users db) as [t |] eqn:Et; [ | discriminate ].
    destruct (existsb _ (Users.rows t)) eqn:Hex; [ discriminate | ].
    intros [= <- <-]. split; simpl; [ | exact (proj2 Hc) ].
    intros t' [= <-]. destruct (Hu t eq_refl) as [He [Hi Hs]].
    repeat split; simpl.
    + rewrite map_app. simpl. apply NoDup_snoc; [ exact He | now apply fresh_not_in ].
    + rewrite map_app. simpl. apply NoDup_snoc; [ exact Hi | apply id_not_in ].
    + now apply (Forall_le_snoc Users.id (Users.rows t) (Users.seq t)).
  - destruct (users db) as [t |] eqn:Et; [ | discriminate ].
    intros [= <- <-]. split; simpl; [ | exact (proj2 Hc) ].
    intros t' [= <-]. destruct (Hu t eq_refl) as [He [Hi Hs]].
    repeat split; simpl.
    + now rewrite map_update.
    + now rewrite map_update.
    + unfold Sqlite.update. apply List.Forall_map. revert Hs. apply List.Forall_impl.
      intros r Hr. now destruct (Sqlite.user_has_id id r).
  - destruct (users db) as [t |] eqn:Et; [ | discriminate ].
    intros [= <- <-]. split; simpl; [ | exact (proj2 Hc) ].
    intros t' [= <-]. destruct (Hu t eq_refl) as [He [Hi Hs]].
    repeat split; simpl.
    + now apply NoDup_map_filter.
    + now apply NoDup_map_filter.
    + apply List.Forall_forall. intros r Hin. apply filter_In in Hin as [Hin _].
      revert r Hin. now apply List.Forall_forall.
  - destruct (orders db) as [t |] eqn:Et; [ | discriminate ].
    destruct (Sqlite.is_null n); [ discriminate | ].
    destruct (Sqlite.is_null p); [ discriminate | ].
    destruct (Sqlite.in_0_1 paid) eqn:Hpaid; [ | discriminate ].
    destruct (Sqlite.in_0_1 delivered) eqn:Hdel; [ | discriminate ].
    simpl. intros [= <- <-]. split; simpl; [ exact (proj1 Hc) | ].
    intros t' [= <-]. destruct (Ho t eq_refl) as [Hi [Hs Hf]].
    repeat split; simpl.
    + rewrite map_app. simpl. apply NoDup_snoc; [ exact Hi | apply id_not_in ].
    + now apply (Forall_le_snoc Orders.id (Orders.rows t) (Orders.seq t)).
    + apply List.Forall_app. split; [ exact Hf | ].
      constructor; [ now split | constructor ].
  - destruct (orders db) as [t |] eqn:Et; [ | discriminate ].
    destruct (Sqlite.count _ (Orders.rows t) =? 0).
    { intros [= <- <-]. exact Hc. }
    destruct (Sqlite.in_0_1 isPaid) eqn:Hpaid; [ | discriminate ].
    destruct (Sqlite.in_0_1 isDelivered) eqn:Hdel; [ | discriminate ].
    simpl. intros [= <- <-]. split; simpl; [ exact (proj1 Hc) | ].
    intros t' [= <-]. destruct (Ho t eq_refl) as [Hi [Hs Hf]].
    repeat split; simpl.
    + now rewrite map_update.
    + unfold Sqlite.update. apply List.Forall_map. revert Hs. apply List.Forall_impl.
      intros r Hr. now destruct (Sqlite.order_has_id orderID r).
    + unfold Sqlite.update. apply List.Forall_map. revert Hf. apply List.Forall_impl.
      intros r Hr. destruct (Sqlite.order_has_id orderID r); [ now split | exact Hr ].
  - destruct (cart db) as [t |] eqn:Et; [ | discriminate ].
    destruct (t !! uid); intros [= <- <-]; (split; simpl; [ exact (proj1 Hc) | exact (proj2 Hc) ]).
Qed.

End Invariants.

(** X4: every operation keeps the invariants of the schema: emails and ids
    of users stay unique, ids of orders stay unique, no id exceeds the
    AUTOINCREMENT counter of its table, and the two flags of every order
    stay 0 or 1. *)
Theorem operations_keep_invariants (op : operation) (db : database) :
  consistent db ->
  consistent (snd (call op db)).
Proof.
  intros Hc.
  destruct (call_effect op db) as [-> | [q [info [d [Hrun _]]]]];
    [ exact Hc | ].
  exact (run_consistent q db _ info Hrun Hc).
Qed.

Lemma loaded_consistent : consistent loaded.
Proof.
  split; intros t [= <-]; repeat split; constructor.
Qed.

Lemma operations_keep_invariants_witness :
  consistent (snd (call (CreateUser "Ann" "ann@example.com" "secret") loaded)).
Proof.
  apply (operations_keep_invariants (CreateUser "Ann" "ann@example.com" "secret") loaded).
  split; intros t [= <-]; repeat split; constructor.
Defined.

(* ===================================================================== *)
(** ** Registering, logging in, updating and deleting users *)
(* ===================================================================== *)

Section UserLemmas.

Lemma find_none_fresh (email : string) (rows : list Users.row) :
  fresh_email email rows ->
  List.find (Sqlite.user_has_email email) rows = None.
Proof.
  intros Hfresh.
  destruct (List.find _ rows) as [r |] eqn:Hfind; [ | reflexivity ].
  apply find_some in Hfind as [Hin Hr]. unfold Sqlite.user_has_email in Hr.
  apply String.eqb_eq in Hr. destruct (Hfresh r Hin Hr).
Qed.

Lemma existsb_fresh (email : string) (rows : list Users.row) :
  fresh_email email rows ->
  existsb (Sqlite.user_has_email email) rows = false.
Proof.
  intros Hfresh.
  destruct (existsb _ rows) eqn:Hex; [ | reflexivity ].
  apply existsb_exists in Hex as [r [Hin Hr]]. unfold Sqlite.user_has_email in Hr.
  apply String.eqb_eq in Hr. destruct (Hfresh r Hin Hr).
Qed.

Lemma find_snoc {A : Type} (p : A -> bool) (l : list A) (x : A) :
  (forall y, In y l -> p y = false) -> p x = true ->
  List.find p (l ++ [x]) = Some x.
Proof.
  intros Hl Hx. induction l as [| y l IH]; simpl.
  - now rewrite Hx.
  - rewrite (Hl y) by now left. apply IH. intros z Hz. apply Hl. now right.
Qed.

(** [checkUser] on a store that has the table, read off the rows. *)
Lemma checkUser_finds (email password : string) (db : database) (t : Users.table) :
  is_open db = true ->
  users db = Some t ->
  checkUser email password db =
  (Return match List.find (Sqlite.user_has_email_password email password)
                          (Users.rows t) with
          | Some res => OK (UserData (Users.id res) (Users.name res) email)
          | None => Error "Wrong email or password."
          end, db).
Proof.
  intros Hopen Ht. unfold checkUser. run_promise. unfold Sqlite.get, Sqlite.all.
  rewrite Hopen, Ht. simpl. rewrite head_filter.
  destruct (List.find _ (Users.rows t)); reflexivity.
Qed.

(** [createUser] with an email no row carries. *)
Lemma createUser_inserts (name email password : string) (db : database)
      (t : Users.table) :
  is_open db = true ->
  users db = Some t ->
  fresh_email email (Users.rows t) ->
  let id := Sqlite.next_id Users.id (Users.rows t) (Users.seq t) in
  createUser name email password db =
  (Return (OK (UserData id name email)),
   with_user (new_user id name email password) t db).
Proof.
  intros Hopen Ht Hfresh id.
  unfold createUser, try_catch, bind. rewrite checkEmailTaken_cases.
  unfold Sqlite.get, Sqlite.all. rewrite Hopen, Ht. simpl.
  rewrite head_filter, find_none_fresh by assumption. simpl.
  unfold dbRun, Sqlite.run. rewrite Hopen, Ht. simpl.
  rewrite existsb_fresh by assumption. reflexivity.
Qed.

(** Rows with different emails are different rows of a table whose emails
    are unique. *)
Lemma same_email_same_row (rows : list Users.row) (x y : Users.row) :
  List.NoDup (map Users.email rows) ->
  In x rows -> In y rows -> Users.email x = Users.email y -> x = y.
Proof.
  induction rows as [| r rows IH]; simpl; intros Hnd Hx Hy He; [ destruct Hx | ].
  inversion Hnd as [| e l Hr Hl]; subst.
  destruct Hx as [-> | Hx], Hy as [-> | Hy].
  - reflexivity.
  - destruct Hr. rewrite He. now apply in_map.
  - destruct Hr. rewrite <- He. now apply in_map.
  - now apply IH.
Qed.

Lemma update_nothing {A : Type} (p : A -> bool) (f : A -> A) (l : list A) :
  (forall x, In x l -> p x = false) -> Sqlite.update p f l = l.
Proof.
  intros Hp. unfold Sqlite.update. induction l as [| x l IH]; simpl; [ reflexivity | ].
  rewrite (Hp x) by now left. f_equal. apply IH. intros y Hy. apply Hp. now right.
Qed.

Lemma filter_everything {A : Type} (p : A -> bool) (l : list A) :
  (forall x, In x l -> p x = true) -> List.filter p l = l.
Proof.
  intros Hp. induction l as [| x l IH]; simpl; [ reflexivity | ].
  rewrite (Hp x) by now left. f_equal. apply IH. intros y Hy. apply Hp. now right.
Qed.

Lemma count_nothing {A : Type} (p : A -> bool) (l : list A) :
  (forall x, In x l -> p x = false) -> Sqlite.count p l = 0.
Proof.
  intros Hp. unfold Sqlite.count.
  destruct (List.filter p l) as [| x l'] eqn:Hf; [ reflexivity | ].
  assert (Hin : In x (List.filter p l)) by (rewrite Hf; now left).
  apply filter_In in Hin as [Hin Hx]. rewrite (Hp x Hin) in Hx. discriminate Hx.
Qed.

(** Writing a table back as it was leaves the store as it was. *)
Lemma set_users_same (db : database) (t : Users.table) :
  users db = Some t ->
  set_users {| Users.rows := Users.rows t; Users.seq := Users.seq t |} db = db.
Proof. destruct db, t. simpl. now intros ->. Qed.

Lemma set_orders_same (db : database) (t : Orders.table) :
  orders db = Some t ->
  set_orders {| Orders.rows := Orders.rows t; Orders.seq := Orders.seq t |} db = db.
Proof. destruct db, t. simpl. now intros ->. Qed.

Lemma max_id_nonneg {R : Type} (id : R -> Z) (rows : list R) :
  0 <= Sqlite.max_id id rows.
Proof.
  unfold Sqlite.max_id. induction rows as [| r rows IH]; cbn [fold_right]; lia.
Qed.

End UserLemmas.

(** X5: registering with an email no row carries answers OK with a
    positive id larger than every id in the table, and a login with the same
    email and password then answers OK with that id, name and email. *)
Theorem register_then_login (name email password : string) (db : database)
        (t : Users.table) :
  is_open db = true ->
  users db = Some t ->
  fresh_email email (Users.rows t) ->
  exists id db',
    createUser name email password db = (Return (OK (UserData id name email)), db') /\
    0 < id /\
    (forall r, In r (Users.rows t) -> Users.id r < id) /\
    user_rows db' = (Users.rows t ++ [new_user id name email password])%list /\
    checkUser email password db' = (Return (OK (UserData id name email)), db').
Proof.
  intros Hopen Ht Hfresh.
  eexists; eexists.
  split; [ exact (createUser_inserts name email password db t Hopen Ht Hfresh) | ].
  split; [ | split; [ | split ] ].
  - unfold Sqlite.next_id.
    pose proof (max_id_nonneg Users.id (Users.rows t)). lia.
  - intros r Hin. now apply next_id_above.
  - reflexivity.
  - rewrite (checkUser_finds email password _
               {| Users.rows := Users.rows t ++ [new_user _ name email password];
                  Users.seq := Sqlite.next_id Users.id (Users.rows t) (Users.seq t) |})
      by (simpl; trivial).
    simpl. rewrite find_snoc; [ reflexivity | | ].
    + intros y Hy. unfold Sqlite.user_has_email_password.
      apply andb_false_iff. left. apply String.eqb_neq. now apply Hfresh.
    + unfold Sqlite.user_has_email_password. simpl. now rewrite !String.eqb_refl.
Qed.

Lemma register_then_login_witness :
  exists id db',
    createUser "Bob" "bob@example.com" "hunter2" ann_registered
      = (Return (OK (UserData id "Bob" "bob@example.com")), db') /\
    checkUser "bob@example.com" "hunter2" db'
      = (Return (OK (UserData id "Bob" "bob@example.com")), db').
Proof.
  destruct (register_then_login "Bob" "bob@example.com" "hunter2" ann_registered
              {| Users.rows := user_rows ann_registered; Users.seq := 1 |}
              eq_refl eq_refl) as [id [db' [H1 [_ [_ [_ H2]]]]]].
  - intros r [<- | []] H. discriminate H.
  - exists id, db'. split; assumption.
Defined.

(** X6: after a registration went through, a second [createUser] with the
    same email, whatever the name and password, is refused with 'The email
    is already used.' and changes nothing. *)
Theorem register_twice (name email password name2 password2 : string)
        (db : database) (t : Users.table) :
  is_open db = true ->
  users db = Some t ->
  fresh_email email (Users.rows t) ->
  let db' := snd (createUser name email password db) in
  createUser name2 email password2 db'
    = (Return (Error "The email is already used."), db').
Proof.
  intros Hopen Ht Hfresh db'. unfold db'.
  rewrite (createUser_inserts name email password db t Hopen Ht Hfresh). simpl.
  pose (id := Sqlite.next_id Users.id (Users.rows t) (Users.seq t)).
  destruct (select_taken_email email (with_user (new_user id name email password) t db)
              {| Users.rows := Users.rows t ++ [new_user id name email password];
                 Users.seq := id |}
              (new_user id name email password)) as [r' Hget]; trivial.
  { simpl. apply in_app_iff. right. now left. }
  apply createUser_after_failed_check with (db1 := with_user (new_user id name email password) t db).
  rewrite checkEmailTaken_cases. fold id. rewrite Hget. reflexivity.
Qed.

Lemma register_twice_witness :
  createUser "Eve" "ann@example.com" "guess" ann_registered
    = (Return (Error "The email is already used."), ann_registered).
Proof.
  apply (register_twice "Ann" "ann@example.com" "secret" "Eve" "guess" loaded
           Users.empty eq_refl eq_refl).
  intros r [].
Defined.

(** [deleteUser] on a store that has the table. *)
Lemma deleteUser_runs (email : string) (db : database) (t : Users.table) :
  is_open db = true ->
  users db = Some t ->
  deleteUser email db =
  (Return (OK (DeletedData
                 {| lastID := last_insert_rowid db;
                    changes := Sqlite.count (Sqlite.user_has_email email) (Users.rows t) |})),
   set_users {| Users.rows := List.filter (fun r => negb (Sqlite.user_has_email email r))
                                          (Users.rows t);
                Users.seq := Users.seq t |} db).
Proof.
  intros Hopen Ht. unfold deleteUser. run_promise. unfold Sqlite.run.
  rewrite Hopen, Ht. reflexivity.
Qed.

(** X7: [deleteUser] removes the rows that carry the email and no other:
    afterwards no row has it, every row with another email is still there,
    and [checkEmailTaken] finds the email free again. *)
Theorem deleteUser_frees_email (email : string) (db : database) (t : Users.table) :
  is_open db = true ->
  users db = Some t ->
  exists info db',
    deleteUser email db = (Return (OK (DeletedData info)), db') /\
    fresh_email email (user_rows db') /\
    (forall r, Users.email r <> email ->
               (In r (user_rows db') <-> In r (Users.rows t))) /\
    (forall r, In r (user_rows db') -> In r (Users.rows t)) /\
    checkEmailTaken email db' = (Return (OK NoData), db').
Proof.
  intros Hopen Ht. eexists; eexists.
  split; [ exact (deleteUser_runs email db t Hopen Ht) | ].
  assert (Hfresh : fresh_email email
            (List.filter (fun r => negb (Sqlite.user_has_email email r)) (Users.rows t))).
  { intros r Hin He. apply filter_In in Hin as [_ Hr].
    unfold Sqlite.user_has_email in Hr. rewrite He, String.eqb_refl in Hr.
    discriminate Hr. }
  split; [ exact Hfresh | split; [ | split ] ].
  - intros r Hne. unfold user_rows. simpl. rewrite filter_In. split.
    + now intros [Hin _].
    + intros Hin. split; [ exact Hin | ]. unfold Sqlite.user_has_email.
      apply negb_true_iff. now apply String.eqb_neq.
  - intros r Hin. unfold user_rows in Hin. simpl in Hin.
    now apply filter_In in Hin as [Hin _].
  - rewrite checkEmailTaken_cases. unfold Sqlite.get, Sqlite.all. simpl.
    rewrite Hopen. simpl. rewrite head_filter, find_none_fresh by exact Hfresh.
    reflexivity.
Qed.

Lemma deleteUser_frees_email_witness :
  exists info db',
    deleteUser "ann@example.com" two_users = (Return (OK (DeletedData info)), db') /\
    checkEmailTaken "ann@example.com" db' = (Return (OK NoData), db').
Proof.
  destruct (deleteUser_frees_email "ann@example.com" two_users
              {| Users.rows := user_rows two_users; Users.seq := 2 |}
              eq_refl eq_refl) as [info [db' [H1 [_ [_ [_ H2]]]]]].
  exists info, db'. split; assumption.
Defined.

(** X8: deleting an email that no row carries still answers OK, reports
    zero changes and leaves the store exactly as it was. *)
Theorem deleteUser_unknown_email (email : string) (db : database) (t : Users.table) :
  is_open db = true ->
  users db = Some t ->
  fresh_email email (Users.rows t) ->
  deleteUser email db =
  (Return (OK (DeletedData {| lastID := last_insert_rowid db; changes := 0 |})), db).
Proof.
  intros Hopen Ht Hfresh. rewrite (deleteUser_runs email db t Hopen Ht).
  assert (Hno : forall r, In r (Users.rows t) -> Sqlite.user_has_email email r = false).
  { intros r Hin. unfold Sqlite.user_has_email. apply String.eqb_neq.
    now apply Hfresh. }
  rewrite count_nothing by exact Hno.
  rewrite filter_everything
    by (intros r Hin; rewrite (Hno r Hin); reflexivity).
  now rewrite set_users_same.
Qed.

Lemma deleteUser_unknown_email_witness :
  deleteUser "nobody@example.com" ann_registered =
  (Return (OK (DeletedData {| lastID := 1; changes := 0 |})), ann_registered).
Proof.
  apply (deleteUser_unknown_email "nobody@example.com" ann_registered
           {| Users.rows := user_rows ann_registered; Users.seq := 1 |}
           eq_refl eq_refl).
  intros r [<- | []] H. discriminate H.
Defined.

(** X9: an id is never given twice: after a user is deleted, a new
    registration gets an id above every id the table held before the
    deletion, the deleted user's included. *)
Theorem ids_are_not_reused (email name2 email2 password2 : string)
        (db : database) (t : Users.table) :
  is_open db = true ->
  users db = Some t ->
  users_ok t ->
  fresh_email email2 (user_rows (snd (deleteUser email db))) ->
  exists id db',
    createUser name2 email2 password2 (snd (deleteUser email db))
      = (Return (OK (UserData id name2 email2)), db') /\
    forall r, In r (Users.rows t) -> Users.id r < id.
Proof.
  intros Hopen Ht [_ [_ Hseq]] Hfresh.
  rewrite (deleteUser_runs email db t Hopen Ht) in *. simpl in *.
  eexists; eexists. split.
  - apply createUser_inserts; [ exact Hopen | reflexivity | exact Hfresh ].
  - intros r Hin. simpl.
    pose proof (proj1 (List.Forall_forall _ _) Hseq r Hin) as Hle. simpl in Hle.
    pose proof (next_id_above_seq Users.id
                  (List.filter (fun r0 => negb (Sqlite.user_has_email email r0))
                               (Users.rows t)) (Users.seq t)).
    lia.
Qed.

Lemma ids_are_not_reused_witness :
  exists id db',
    createUser "Bob" "bob@example.com" "hunter2"
               (snd (deleteUser "ann@example.com" ann_registered))
      = (Return (OK (UserData id "Bob" "bob@example.com")), db') /\
    1 < id.
Proof.
  destruct (ids_are_not_reused "ann@example.com" "Bob" "bob@example.com" "hunter2"
              ann_registered
              {| Users.rows := user_rows ann_registered; Users.seq := 1 |}
              eq_refl eq_refl) as [id [db' [H1 H2]]].
  - repeat split; vm_compute.
    + constructor; [ intros [] | constructor ].
    + constructor; [ intros [] | constructor ].
    + constructor; [ discriminate | constructor ].
  - intros r [].
  - exists id, db'. split; [ exact H1 | ].
    apply (H2 (new_user 1 "Ann" "ann@example.com" "secret")). now left.
Defined.

(* ===================================================================== *)
(** ** updateUser *)
(* ===================================================================== *)

Lemma not_nonempty (s : string) : s <> "" -> not_ s = false.
Proof. intros H. unfold not_. now apply String.eqb_neq. Qed.

(** [updateUser] with a name and a password, on a store that has the table. *)
Lemma updateUser_runs (userID : Z) (name password : string) (db : database)
      (t : Users.table) :
  name <> "" -> password <> "" ->
  is_open db = true ->
  users db = Some t ->
  updateUser userID name password db =
  (Return (OK (UpdatedData "User name and password update successfully." name)),
   set_users {| Users.rows := Sqlite.update (Sqlite.user_has_id userID)
                                (Sqlite.set_name_password name password)
                                (Users.rows t);
                Users.seq := Users.seq t |} db).
Proof.
  intros Hn Hp Hopen Ht. unfold updateUser.
  rewrite (not_nonempty name Hn), (not_nonempty password Hp). simpl.
  run_promise. unfold Sqlite.run. rewrite Hopen, Ht. reflexivity.
Qed.

(** X10: [updateUser] does not check that the user exists: for an id that
    no row carries it answers OK all the same and leaves the store as it
    was. *)
Theorem updateUser_unknown_id (userID : Z) (name password : string)
        (db : database) (t : Users.table) :
  name <> "" -> password <> "" ->
  is_open db = true ->
  users db = Some t ->
  (forall r, In r (Users.rows t) -> Users.id r <> userID) ->
  updateUser userID name password db =
  (Return (OK (UpdatedData "User name and password update successfully." name)), db).
Proof.
  intros Hn Hp Hopen Ht Hno.
  rewrite (updateUser_runs userID name password db t Hn Hp Hopen Ht).
  rewrite update_nothing.
  - now rewrite set_users_same.
  - intros r Hin. unfold Sqlite.user_has_id. apply Z.eqb_neq. now apply Hno.
Qed.

Lemma updateUser_unknown_id_witness :
  updateUser 9 "Zed" "pw" ann_registered =
  (Return (OK (UpdatedData "User name and password update successfully." "Zed")),
   ann_registered).
Proof.
  apply (updateUser_unknown_id 9 "Zed" "pw" ann_registered
           {| Users.rows := user_rows ann_registered; Users.seq := 1 |});
    [ discriminate | discriminate | reflexivity | reflexivity | ].
  intros r [<- | []] H. discriminate H.
Defined.

(** X11: after [updateUser] on an existing user, of a table whose emails
    are unique, a login with the user's email and the new password answers
    OK with the same id and email and the new name; the email is not
    changed, and the old password, if different, is refused. *)
Theorem updateUser_then_login (name password : string) (db : database)
        (t : Users.table) (r : Users.row) :
  name <> "" -> password <> "" ->
  is_open db = true ->
  users db = Some t ->
  List.NoDup (map Users.email (Users.rows t)) ->
  In r (Users.rows t) ->
  let db' := snd (updateUser (Users.id r) name password db) in
  checkUser (Users.email r) password db'
    = (Return (OK (UserData (Users.id r) name (Users.email r))), db') /\
  (Users.password r <> password ->
   checkUser (Users.email r) (Users.password r) db'
     = (Return (Error "Wrong email or password."), db')).
Proof.
  intros Hn Hp Hopen Ht Hnd Hin db'. unfold db'.
  rewrite (updateUser_runs (Users.id r) name password db t Hn Hp Hopen Ht). simpl.
  set (rows' := Sqlite.update (Sqlite.user_has_id (Users.id r))
                  (Sqlite.set_name_password name password) (Users.rows t)).
  assert (Himg : forall y, In y rows' -> Users.email y = Users.email r ->
                           y = Sqlite.set_name_password name password r).
  { intros y Hy He. unfold rows', Sqlite.update in Hy.
    apply in_map_iff in Hy as [x [Hxy Hx]].
    assert (Hex : Users.email x = Users.email r).
    { rewrite <- He, <- Hxy. now destruct (Sqlite.user_has_id (Users.id r) x). }
    rewrite (same_email_same_row _ x r Hnd Hx Hin Hex) in Hxy.
    unfold Sqlite.user_has_id in Hxy. now rewrite Z.eqb_refl in Hxy. }
  assert (Hr' : In (Sqlite.set_name_password name password r) rows').
  { unfold rows', Sqlite.update. apply in_map_iff. exists r. split; [ | exact Hin ].
    unfold Sqlite.user_has_id. now rewrite Z.eqb_refl. }
  split.
  - rewrite (checkUser_finds _ _ _ {| Users.rows := rows'; Users.seq := Users.seq t |})
      by (simpl; trivial).
    simpl.
    destruct (List.find _ rows') as [y |] eqn:Hfind.
    + apply find_some in Hfind as [Hy Hpy].
      unfold Sqlite.user_has_email_password in Hpy.
      apply andb_true_iff in Hpy as [He _]. apply String.eqb_eq in He.
      rewrite (Himg y Hy He). reflexivity.
    + apply (find_none _ _ Hfind) in Hr'.
      unfold Sqlite.user_has_email_password in Hr'. simpl in Hr'.
      rewrite !String.eqb_refl in Hr'. discriminate Hr'.
  - intros Hold.
    rewrite (checkUser_finds _ _ _ {| Users.rows := rows'; Users.seq := Users.seq t |})
      by (simpl; trivial).
    simpl.
    destruct (List.find _ rows') as [y |] eqn:Hfind; [ | reflexivity ].
    apply find_some in Hfind as [Hy Hpy].
    unfold Sqlite.user_has_email_password in Hpy.
    apply andb_true_iff in Hpy as [He Hpw].
    apply String.eqb_eq in He. apply String.eqb_eq in Hpw.
    rewrite (Himg y Hy He) in Hpw. simpl in Hpw. now destruct Hold.
Qed.

Lemma updateUser_then_login_witness :
  checkUser "ann@example.com" "s3cret"
            (snd (updateUser 1 "Anna" "s3cret" ann_registered))
    = (Return (OK (UserData 1 "Anna" "ann@example.com")),
       snd (updateUser 1 "Anna" "s3cret" ann_registered)).
Proof.
  apply (updateUser_then_login "Anna" "s3cret" ann_registered
           {| Users.rows := user_rows ann_registered; Users.seq := 1 |}
           (new_user 1 "Ann" "ann@example.com" "secret"));
    [ discriminate | discriminate | reflexivity | reflexivity | | now left ].
  constructor; [ intros [] | constructor ].
Defined.

(* ===================================================================== *)
(** ** Listing and updating orders *)
(* ===================================================================== *)

(** [getOrdersByUser] on a store that has the table. *)
Lemma getOrdersByUser_reads (userID : Z) (db : database) (t : Orders.table) :
  is_open db = true ->
  orders db = Some t ->
  getOrdersByUser userID db =
  (Return (OK (OrdersData (List.filter (Sqlite.order_has_uid userID) (Orders.rows t)))),
   db).
Proof.
  intros Hopen Ht. unfold getOrdersByUser. run_promise. unfold Sqlite.all.
  rewrite Hopen, Ht. reflexivity.
Qed.

(** X12: an order placed by a user is appended to that user's listing and
    to no other: after [createOrder(u, items)] went through,
    [getOrdersByUser(u)] returns the user's earlier orders followed by the
    new one, and [getOrdersByUser(v)] of any other user returns what it
    returned before. *)
Theorem createOrder_then_list (u : Z) (items : list item) (db : database)
        (t : Orders.table) :
  is_open db = true ->
  orders db = Some t ->
  PrimFloat.is_nan (item_count items) = false ->
  PrimFloat.is_nan (total_of_rounded_lines items) = false ->
  let db' := snd (createOrder u (Some items) db) in
  let id := Sqlite.next_id Orders.id (Orders.rows t) (Orders.seq t) in
  fst (getOrdersByUser u db') =
    Return (OK (OrdersData (List.filter (Sqlite.order_has_uid u) (Orders.rows t)
                            ++ [new_order id u items]))) /\
  (forall v, v <> u -> fst (getOrdersByUser v db') = fst (getOrdersByUser v db)).
Proof.
  intros Hopen Ht Hcnt Hsum db' id. unfold db'.
  rewrite (createOrder_inserts u items db t Hopen Ht Hcnt Hsum). simpl. fold id.
  assert (Hread : forall v,
            getOrdersByUser v (with_order (new_order id u items) t db) =
            (Return (OK (OrdersData (List.filter (Sqlite.order_has_uid v)
                                       (Orders.rows t ++ [new_order id u items])))),
             with_order (new_order id u items) t db)).
  { intros v.
    now rewrite (getOrdersByUser_reads v _
                   {| Orders.rows := Orders.rows t ++ [new_order id u items];
                      Orders.seq := id |}). }
  split.
  - rewrite Hread. simpl. rewrite List.filter_app. simpl.
    unfold Sqlite.order_has_uid at 2. simpl. now rewrite Z.eqb_refl.
  - intros v Hv. rewrite Hread, (getOrdersByUser_reads v db t Hopen Ht). simpl.
    rewrite List.filter_app. simpl. unfold Sqlite.order_has_uid at 2. simpl.
    apply Z.eqb_neq in Hv. rewrite Z.eqb_sym, Hv. now rewrite app_nil_r.
Qed.

Lemma createOrder_then_list_witness :
  fst (getOrdersByUser 8 two_orders) =
    Return (OK (OrdersData [new_order 2 8 half_cent_items])) /\
  fst (getOrdersByUser 7 two_orders) = fst (getOrdersByUser 7 order_placed).
Proof.
  destruct (createOrder_then_list 8 half_cent_items order_placed
              {| Orders.rows := order_rows order_placed; Orders.seq := 1 |}
              eq_refl eq_refl eq_refl eq_refl) as [H1 H2].
  split; [ exact H1 | apply H2; discriminate ].
Defined.

(** X13: [updateOrder] does not check that the order exists: for an id no
    order carries it answers OK with zero changes, whatever the two flags,
    and leaves the store as it was. *)
Theorem updateOrder_unknown_id (orderID isPaid isDelivered : Z) (db : database)
        (t : Orders.table) :
  is_open db = true ->
  orders db = Some t ->
  (forall r, In r (Orders.rows t) -> Orders.id r <> orderID) ->
  updateOrder orderID isPaid isDelivered db =
  (Return (OK (ResultData {| lastID := last_insert_rowid db; changes := 0 |})), db).
Proof.
  intros Hopen Ht Hno. unfold updateOrder. run_promise. unfold Sqlite.run.
  rewrite Hopen, Ht. simpl.
  rewrite count_nothing; [ reflexivity | ].
  intros r Hin. unfold Sqlite.order_has_id. apply Z.eqb_neq. now apply Hno.
Qed.

Lemma updateOrder_unknown_id_witness :
  updateOrder 5 1 1 order_placed =
  (Return (OK (ResultData {| lastID := 1; changes := 0 |})), order_placed).
Proof.
  apply (updateOrder_unknown_id 5 1 1 order_placed
           {| Orders.rows := order_rows order_placed; Orders.seq := 1 |}
           eq_refl eq_refl).
  intros r [<- | []] H. discriminate H.
Defined.

(** X14: the flags of an order can only become 0 or 1: [updateOrder] on an
    existing order with a flag that is neither answers 'update order error'
    and changes no row. *)
Theorem updateOrder_rejects_other_flags (orderID isPaid isDelivered : Z)
        (db : database) (t : Orders.table) (r : Orders.row) :
  is_open db = true ->
  orders db = Some t ->
  In r (Orders.rows t) ->
  Orders.id r = orderID ->
  ~ (isPaid = 0 \/ isPaid = 1) \/ ~ (isDelivered = 0 \/ isDelivered = 1) ->
  updateOrder orderID isPaid isDelivered db = (Return (Error "update order error"), db).
Proof.
  intros Hopen Ht Hin Hid Hbad. unfold updateOrder. run_promise. unfold Sqlite.run.
  rewrite Hopen, Ht. simpl.
  rewrite (count_existing _ _ r Hin)
    by (unfold Sqlite.order_has_id; now apply Z.eqb_eq).
  assert (Hflag : forall v, ~ (v = 0 \/ v = 1) -> Sqlite.in_0_1 v = false).
  { intros v Hv. unfold Sqlite.in_0_1. apply orb_false_iff.
    split; apply Z.eqb_neq; intros ->; apply Hv; [ now left | now right ]. }
  destruct Hbad as [Hp | Hd].
  - now rewrite (Hflag isPaid Hp).
  - rewrite (Hflag isDelivered Hd).
    destruct (Sqlite.in_0_1 isPaid); reflexivity.
Qed.

Lemma updateOrder_rejects_other_flags_witness :
  updateOrder 1 2 0 order_placed = (Return (Error "update order error"), order_placed).
Proof.
  apply (updateOrder_rejects_other_flags 1 2 0 order_placed
           {| Orders.rows := order_rows order_placed; Orders.seq := 1 |}
           (new_order 1 7 example_items));
    [ reflexivity | reflexivity | now left | reflexivity | ].
  left. intros [H | H]; discriminate H.
Defined.

(** X15: [createOrder] does not refuse an empty item list: on a store that
    takes the insert it inserts an order with item_numbers = 0,
    total_price = 0 and the text of an empty array. *)
Theorem createOrder_without_lines (userID : Z) (db : database) (t : Orders.table) :
  is_open db = true ->
  orders db = Some t ->
  exists id r,
    createOrder userID (Some []) db = (Return (OK (IdData id)), with_order r t db) /\
    Orders.id r = id /\ Orders.uid r = userID /\
    Orders.item_numbers r = 0%float /\ Orders.total_price r = 0%float /\
    JSON.parse (Orders.order_items r) = JArr [].
Proof.
  intros Hopen Ht. eexists; eexists. split.
  - apply createOrder_inserts; [ exact Hopen | exact Ht | reflexivity | reflexivity ].
  - repeat split; reflexivity.
Qed.

Lemma createOrder_without_lines_witness :
  exists id r,
    createOrder 7 (Some []) loaded
      = (Return (OK (IdData id)), with_order r Orders.empty loaded) /\
    Orders.item_numbers r = 0%float /\ Orders.total_price r = 0%float.
Proof.
  destruct (createOrder_without_lines 7 loaded Orders.empty eq_refl eq_refl)
    as [id [r [H [_ [_ [Hn [Hp _]]]]]]].
  exists id, r. repeat split; assumption.
Defined.

(* ===================================================================== *)
(** ** More on the cart *)
(* ===================================================================== *)

(** X16: carts are per user: [updateCart(u, X)] leaves what [getCart(v)]
    returns for every other user [v] as it was. *)
Theorem updateCart_other_user (u v : Z) (X : list json) (db : database)
        (t : Cart.table) :
  is_open db = true ->
  cart db = Some t ->
  v <> u ->
  fst (getCart v (snd (updateCart u X db))) = fst (getCart v db).
Proof.
  intros Hopen Ht Hne.
  destruct (updateCart_stores u X db t Hopen Ht)
    as [i1 [db1 [r1 [E1 [Hopen1 [Ht1 Hr1]]]]]].
  rewrite E1. simpl.
  rewrite (getCart_reads v db1 _ Hopen1 Ht1), (getCart_reads v db t Hopen Ht).
  simpl. rewrite lookup_insert_ne by congruence. reflexivity.
Qed.

Lemma updateCart_other_user_witness :
  fst (getCart 4 (snd (updateCart 3 [JStr "pen"] loaded))) = fst (getCart 4 loaded).
Proof.
  apply (updateCart_other_user 3 4 [JStr "pen"] loaded ∅);
    [ reflexivity | reflexivity | discriminate ].
Defined.

Section Documents.

Lemma exact_number_doc (n : number) : JSON.exact (JSON.number_doc n) = true.
Proof.
  unfold JSON.number_doc.
  destruct (PrimFloat.is_finite n) eqn:Hfin; [ | reflexivity ].
  destruct (PrimFloat.get_sign n && PrimFloat.is_zero n) eqn:Hz; simpl.
  - reflexivity.
  - unfold JSON.exact_number. now rewrite Hfin, Hz.
Qed.

(** What the serializer writes is spelt exactly. *)
Lemma exact_document : forall v : json, JSON.exact (JSON.document v) = true.
Proof.
  fix IH 1. intros [ | b | n | s | elems | props ]; simpl; try reflexivity.
  - apply exact_number_doc.
  - induction elems as [| x xs IHxs]; simpl; [ reflexivity | ].
    now rewrite IH, IHxs.
  - induction props as [| [k x] xs IHxs]; simpl; [ reflexivity | ].
    now rewrite IH, IHxs.
Qed.

End Documents.

(** X17: for every item list, exact or not, [getCart] after [updateCart]
    returns the list as JSON text spells it: NaN and the infinities come
    back as null and negative zero as 0.  What comes back is stable: stored
    again, it is returned unchanged. *)
Theorem getCart_returns_document (u : Z) (X : list json) (db : database)
        (t : Cart.table) :
  is_open db = true ->
  cart db = Some t ->
  let db1 := snd (updateCart u X db) in
  fst (getCart u db1) = Return (OK (ItemsData (JArr (map JSON.document X)))) /\
  fst (getCart u (snd (updateCart u (map JSON.document X) db1)))
    = Return (OK (ItemsData (JArr (map JSON.document X)))).
Proof.
  intros Hopen Ht db1. unfold db1.
  destruct (updateCart_stores u X db t Hopen Ht)
    as [i1 [d1 [r1 [E1 [Hopen1 [Ht1 Hr1]]]]]].
  rewrite E1. simpl.
  destruct (updateCart_stores u (map JSON.document X) d1 _ Hopen1 Ht1)
    as [i2 [d2 [r2 [E2 [Hopen2 [Ht2 Hr2]]]]]].
  rewrite E2. simpl.
  rewrite (getCart_reads u d1 _ Hopen1 Ht1), (getCart_reads u d2 _ Hopen2 Ht2).
  simpl. rewrite !lookup_insert_eq, Hr1, Hr2. split; [ reflexivity | ].
  rewrite parse_stringify; [ reflexivity | ].
  apply (exact_document (JArr X)).
Qed.

Lemma getCart_returns_document_witness :
  fst (getCart 3 (snd (updateCart 3 [JNum PrimFloat.nan; JNum PrimFloat.neg_zero;
                                     JNum PrimFloat.infinity; JNum 2.5] loaded)))
  = Return (OK (ItemsData (JArr [JNull; JNum 0; JNull; JNum 2.5]))).
Proof.
  apply (getCart_returns_document 3
           [JNum PrimFloat.nan; JNum PrimFloat.neg_zero;
            JNum PrimFloat.infinity; JNum 2.5] loaded ∅);
    reflexivity.
Defined.

(* ===================================================================== *)
(** ** Orders are kept *)
(* ===================================================================== *)

Section OrderHistory.





End OrderHistory.


(** X19: the initialisation run when the module loads never fails; on an
    open connection it creates each missing table empty and keeps each
    existing table as it is, on a closed one it changes nothing; running it
    again changes nothing more. *)
Theorem init_creates_missing_tables (db : database) :
  fst (init db) = Return tt /\
  (is_open db = true -> snd (init db) = with_tables db) /\
  (is_open db = false -> snd (init db) = db) /\
  snd (init (snd (init db))) = snd (init db).
Proof.
  destruct db as [[] [u |] [o |] [c |] l];
    repeat split; intros; try reflexivity; discriminate.
Qed.
